(** * ACME certificate renewal (internal/server/acme/acme.go)

    A shallow embedding of [certificateNeedsUpdate] and [UpdateCertificate]
    together with the properties of the renewal policy, the cluster
    certificate buffer, the challenge dispatch and the two retry loops.

    The Go function talks to the file system, the clock, the logger, an
    external [lego] process and the ACME client.  Those collaborators are
    modelled by
    - a record [Env] of oracles, one per external call whose answer the
      function only inspects (parsers, the ACME client, the subprocess);
    - a record [World] for what the function changes or what changes under
      it: the files of the state directory, the clock, the number of calls
      the CA has seen, and the trace of observable effects in program order.

    The function body is written in a small monad over [World] whose
    outcomes are "go on with a value", "the Go function returned
    [(resource, err)]" and "the Go function panicked". *)

From Stdlib Require Import ZArith List Lia String.
From stdpp Require Import gmap strings list.

Open Scope Z_scope.

(** ** Data *)

(** [[]byte] *)
Definition bytes := list Byte.byte.

(** Go's [error] values, as far as the function tells them apart: the type
    assertion of [err] to a pointer to [acme.ProblemDetails] recognises only
    a value of that dynamic type; an error produced by
    [fmt.Errorf] (with or without [%w]) has another dynamic type. *)
Inductive error : Type :=
| ProblemDetails (Type_ : string) (Detail : string)
| ErrorString (msg : string)
| Errorf (msg : string) (cause : error).

(** A Go call returning [(value, err)]. *)
Inductive result (A : Type) : Type :=
| Ok (a : A)
| Err (e : error).
Arguments Ok {A} a.
Arguments Err {A} e.

(** [time.Time] as the number of nanoseconds since the epoch and
    [time.Duration] as a number of nanoseconds.  ([Time.Add] saturates only
    at about 2^63 seconds, far outside the years 0..9999 an X.509 validity
    field can hold.) *)
Module time.
Definition Time := Z.
Definition Duration := Z.
Definition Second : Duration := 1000000000.
Definition Hour : Duration := 3600 * Second.
Definition Add (t : Time) (d : Duration) : Time := t + d.
(** [t.After(u)]: t is strictly later than u. *)
Definition After (t u : Time) : bool := u <? t.
End time.

Module x509.
Record Certificate := { DNSNames : list string; NotAfter : time.Time }.
End x509.

Module tls.
(** [tls.Certificate]: the chain of DER blocks and the private key. *)
Record KeyPair := { Certificate : list bytes; PrivateKey : bytes }.
End tls.

Module certificate.
(** [certificate.Resource]; the remaining fields keep their zero value in
    the values this function builds. *)
Record Resource := { Certificate : bytes; PrivateKey : bytes }.
Record ObtainRequest :=
  { Domains : list string; Bundle : bool; ReqPrivateKey : bytes }.
End certificate.

Module localtls.
(** [*localtls.CertInfo] with its accessors [KeyPair()], [PublicKey()],
    [PrivateKey()]. *)
Record CertInfo :=
  { KeyPair : tls.KeyPair; PublicKey : bytes; PrivateKey : bytes }.
End localtls.

Module lego.
Inductive KeyType := RSA2048 | EC256.
(** [lego.Config] with the [user] it is made for. *)
Record Config :=
  { UserEmail : string; UserKey : bytes; CADirURL : string; KeyType_ : KeyType }.
End lego.

(** An entry of the state directory: a file with its contents, or an entry
    that exists ([Lstat] succeeds) but cannot be read. *)
Inductive node : Type :=
| File (content : bytes)
| Unreadable (why : error).

Inductive level := Debug | Info | Warn.

(** Observable effects, in program order. *)
Inductive event : Type :=
| EvReadFile (path : string)
| EvRemove (path : string)
| EvLoadCert (dir : string)
| EvLog (l : level) (msg : string)
| EvMkdirTemp (dir pattern : string)
| EvRemoveAll (path : string)
| EvRunCommand (env : list string) (cmd : string) (args : list string)
| EvKeyPairAndCA (dir prefix : string)
| EvGenerateKey
| EvNewClient (cfg : lego.Config)
| EvRegisterWithSolver
| EvRegister
| EvObtain (req : certificate.ObtainRequest)
| EvSleep (d : time.Duration).

(** ** The environment and the world *)

Record Env := {
  (** [internalUtil.VarPath] and [s.OS.VarDir] *)
  VarPath : string -> string;
  VarDir : string;
  (** [tls.X509KeyPair], [x509.ParseCertificate] *)
  X509KeyPair : bytes -> bytes -> result tls.KeyPair;
  ParseCertificate : bytes -> result x509.Certificate;
  (** [internalUtil.LoadCert], [localtls.KeyPairAndCA] *)
  LoadCert : string -> result localtls.CertInfo;
  KeyPairAndCA : string -> string -> result localtls.CertInfo;
  (** [s.GlobalConfig.ACMEDNS()]: provider, environment, resolvers *)
  ACMEDNS : string * list string * list string;
  (** [os.MkdirTemp], [os.RemoveAll], [os.Environ] *)
  MkdirTemp : string -> string -> result string;
  RemoveAll : string -> option error;
  Environ : list string;
  (** [subprocess.RunCommandSplit] *)
  RunCommandSplit : list string -> string -> list string -> option error;
  (** [ecdsa.GenerateKey], [lego.NewClient], [provider.RegisterWithSolver] *)
  GenerateKey : result bytes;
  NewClient : lego.Config -> option error;
  RegisterWithSolver : option error;
  (** the CA: the answer to the n-th call (from 0) of
      [client.Registration.Register] and of [client.Certificate.Obtain] *)
  Register : nat -> result string;
  Obtain : certificate.ObtainRequest -> nat -> result certificate.Resource
}.

Record World := {
  fs : gmap string node;
  clock : time.Time;
  registerCalls : nat;
  obtainCalls : nat;
  trace : list event
}.

(** The world after some more effects that change nothing but the trace. *)
Definition logged (evs : list event) (w : World) : World :=
  {| fs := fs w; clock := clock w; registerCalls := registerCalls w;
     obtainCalls := obtainCalls w; trace := trace w ++ evs |}.

Definition emit (e : event) (w : World) : World := logged [e] w.

(** ** The monad *)

Inductive outcome (A : Type) : Type :=
| Next (a : A)
| Return (r : option certificate.Resource) (e : option error)
| Panic.
Arguments Next {A} a.
Arguments Return {A} r e.
Arguments Panic {A}.

Definition M (A : Type) : Type := World -> outcome A * World.

Definition ret {A} (a : A) : M A := fun w => (Next a, w).

Definition bind {A B} (m : M A) (k : A -> M B) : M B :=
  fun w =>
    match m w with
    | (Next a, w') => k a w'
    | (Return r e, w') => (Return r e, w')
    | (Panic, w') => (Panic, w')
    end.

Notation "'let*' x ':=' m 'in' k" := (bind m (fun x => k))
  (at level 10, x pattern, m at level 100, k at level 200).

(** [return r, e] *)
Definition return_ {A} (r : option certificate.Resource) (e : option error) : M A :=
  fun w => (Return r e, w).

Definition panic {A} : M A := fun w => (Panic, w).

Definition effect (e : event) : M unit := fun w => (Next tt, emit e w).

(** [x, err := f(); if err != nil { return nil, fmt.Errorf("msg: %w", err) }] *)
Definition try {A} (r : result A) (msg : string) : M A :=
  match r with
  | Ok a => ret a
  | Err e => return_ None (Some (Errorf msg e))
  end.

(** [err := f(); if err != nil { return nil, fmt.Errorf("msg: %w", err) }] *)
Definition check (r : option error) (msg : string) : M unit :=
  match r with
  | None => ret tt
  | Some e => return_ None (Some (Errorf msg e))
  end.

(** [defer cleanup()] around the rest of the function: the cleanup runs
    when the function returns, whatever it returns. *)
Definition defer {A} (cleanup : World -> World) (body : M A) : M A :=
  fun w => let (o, w') := body w in (o, cleanup w').

(** ** The collaborators *)

Definition ErrNotExist : error := ErrorString "file does not exist".

(** [util.PathExists] *)
Definition PathExists (path : string) : M bool :=
  fun w => (Next match fs w !! path with Some _ => true | None => false end, w).

(** What [os.ReadFile] answers for an entry of the directory. *)
Definition readResult (entry : option node) : result bytes :=
  match entry with
  | Some (File content) => Ok content
  | Some (Unreadable why) => Err why
  | None => Err ErrNotExist
  end.

(** [os.ReadFile] *)
Definition ReadFile (path : string) : M (result bytes) :=
  fun w => (Next (readResult (fs w !! path)), emit (EvReadFile path) w).

(** The world after [os.Remove(path)] on an existing entry. *)
Definition removed (path : string) (w : World) : World :=
  emit (EvRemove path)
    {| fs := delete path (fs w); clock := clock w;
       registerCalls := registerCalls w; obtainCalls := obtainCalls w;
       trace := trace w |}.

(** [_ = os.Remove(path)]: the entry is removed from the directory; the
    caller drops the error value. *)
Definition Remove (path : string) : M unit :=
  fun w => (Next tt, removed path w).

(** [time.Now()] *)
Definition Now : M time.Time := fun w => (Next (clock w), w).

(** [time.Sleep(d)] *)
Definition Sleep (d : time.Duration) : M unit :=
  fun w =>
    (Next tt,
     emit (EvSleep d)
       {| fs := fs w; clock := time.Add (clock w) d;
          registerCalls := registerCalls w; obtainCalls := obtainCalls w;
          trace := trace w |}).

Definition log (l : level) (msg : string) : M unit := effect (EvLog l msg).

(** [slices.Contains] *)
Fixpoint slices_Contains (s : list string) (v : string) : bool :=
  match s with
  | [] => false
  | x :: s' => if String.eqb x v then true else slices_Contains s' v
  end.

(** ** The program *)

(** [const retries = 5] *)
Definition retries : nat := 5.

(** [const ClusterCertFilename = "cluster.crt.new"] *)
Definition ClusterCertFilename : string := "cluster.crt.new".

(** [certificateNeedsUpdate]: true if the domain doesn't match the
    certificate's DNS names or it's valid for less than 30 days. *)
Definition certificateNeedsUpdate (domain : string) (cert : x509.Certificate) : M bool :=
  let* now := Now in
  ret (negb (slices_Contains (x509.DNSNames cert) domain)
       || time.After now (time.Add (x509.NotAfter cert) (-30 * 24 * time.Hour))).

Section Program.
Context (E : Env).

(** [details, ok := err.(...); ok && details.Type == "...rateLimited"] *)
Definition isRateLimited (err : error) : bool :=
  match err with
  | ProblemDetails ty _ => String.eqb ty "urn:ietf:params:acme:error:rateLimited"
  | _ => false
  end.

(** [chain[0]]: indexing an empty slice panics. *)
Definition index0 (chain : list bytes) : M bytes :=
  match chain with
  | c :: _ => ret c
  | [] => panic
  end.

(** Lines 54-83: the cluster certificate buffer.  [Next tt] is the fall
    through to line 85; [Return] is one of the five returns of the block. *)
Definition bufferedCertificate (clusterCertFilename : string)
    (clustered : bool) (domain : string) (force : bool) : M unit :=
  let* present :=
    (if negb force && clustered then PathExists clusterCertFilename else ret false) in
  if present : bool then
    let keyFilename := VarPath E "cluster.key" in
    let* r := ReadFile clusterCertFilename in
    let* clusterCert := try r "Failed reading cluster certificate file" in
    let* r := ReadFile keyFilename in
    let* key := try r "Failed reading cluster key file" in
    let* keyPair := try (X509KeyPair E clusterCert key) "Failed to get keypair" in
    let* leaf := index0 (tls.Certificate keyPair) in
    let* cert := try (ParseCertificate E leaf) "Failed to parse certificate" in
    let* needs := certificateNeedsUpdate domain cert in
    if negb needs then
      return_ (Some {| certificate.Certificate := clusterCert;
                       certificate.PrivateKey := key |}) None
    else ret tt
  else ret tt.

(** The deferred function of the DNS-01 branch (lines 117-122). *)
Definition removeTmpDir (tmpDir : string) (w : World) : World :=
  let w' := emit (EvRemoveAll tmpDir) w in
  match RemoveAll E tmpDir with
  | Some _ => emit (EvLog Warn "Failed to remove temporary directory") w'
  | None => w'
  end.

(** Lines 124-139: the arguments of the [lego] command. *)
Definition legoArgs (provider domain email tmpDir caURL : string)
    (resolvers : list string) : list string :=
  let args :=
    ["--accept-tos"; "--dns"; provider; "--domains"; domain;
     "--email"; email; "--path"; tmpDir; "--server"; caURL] in
  let args :=
    if (0 <? length resolvers)%nat then
      fold_left (fun args resolver => args ++ ["--dns.resolvers"; resolver])
        resolvers args
    else args in
  args ++ ["run"].

(** Lines 105-155: the DNS-01 branch. *)
Definition dns01 (domain email caURL : string) : M Empty_set :=
  let '(provider, environment, resolvers) := ACMEDNS E in
  if String.eqb provider "" then
    return_ None
      (Some (ErrorString
         "DNS-01 challenge type requires acme.dns.provider configuration key to be set"))
  else
    let* _ := effect (EvMkdirTemp "" "lego") in
    let* tmpDir := try (MkdirTemp E "" "lego") "Failed to create temporary directory" in
    defer (removeTmpDir tmpDir)
      (let args := legoArgs provider domain email tmpDir caURL resolvers in
       let env := Environ E ++ environment in
       let* _ := effect (EvRunCommand env "lego" args) in
       let* _ := check (RunCommandSplit E env "lego" args) "Failed to run lego command" in
       let* _ := effect (EvKeyPairAndCA (tmpDir +:+ "/certificates") domain) in
       let* certInfo :=
         try (KeyPairAndCA E (tmpDir +:+ "/certificates") domain)
           "Failed to load certificate and key file" in
       return_ (Some {| certificate.Certificate := localtls.PublicKey certInfo;
                        certificate.PrivateKey := localtls.PrivateKey certInfo |})
         None).

(** [client.Registration.Register(...)] *)
Definition Registration_Register : M (result string) :=
  fun w =>
    (Next (Register E (registerCalls w)),
     emit EvRegister
       {| fs := fs w; clock := clock w; registerCalls := S (registerCalls w);
          obtainCalls := obtainCalls w; trace := trace w |}).

(** [client.Certificate.Obtain(request)] *)
Definition Certificate_Obtain (request : certificate.ObtainRequest)
  : M (result certificate.Resource) :=
  fun w =>
    (Next (Obtain E request (obtainCalls w)),
     emit (EvObtain request)
       {| fs := fs w; clock := clock w; registerCalls := registerCalls w;
          obtainCalls := S (obtainCalls w); trace := trace w |}).

(** The loop shared by lines 192-206 and 226-240:
    [for i := 0; i < retries; i++ { val, err = attempt(); ... }]
    with [n] the number of iterations left and [(val, err)] the two
    variables the loop assigns. *)
Fixpoint retryLoop {A} (attempt : M (result A)) (warning : string) (n : nat)
    (val : option A) (err : option error) : M (option A * option error) :=
  match n with
  | O => ret (val, err)
  | S n' =>
      let* r := attempt in
      match r with
      | Ok a => ret (Some a, None)
      | Err e =>
          if isRateLimited e then ret (None, Some e)
          else
            let* _ := log Warn warning in
            let* _ := Sleep (10 * time.Second) in
            retryLoop attempt warning n' None (Some e)
      end
  end.

(** A retry loop followed by its check
    [if err != nil { return nil, fmt.Errorf("failure: %w", err) }]. *)
Definition retried {A} (attempt : M (result A)) (warning failure : string)
  : M (option A) :=
  let* (val, err) := retryLoop attempt warning retries None None in
  let* _ := check err failure in
  ret val.

Definition registerWarning : string :=
  "Failed to register user, retrying in 10 seconds".
Definition obtainWarning : string :=
  "Failed to obtain certificate, retrying in 10 seconds".

(** Lines 189-210: the registration loop and the check after it. *)
Definition register : M (option string) :=
  retried Registration_Register registerWarning "Failed to register user".

(** Lines 220-244: the issuance loop and the check after it. *)
Definition obtain (request : certificate.ObtainRequest)
  : M (option certificate.Resource) :=
  retried (Certificate_Obtain request) obtainWarning "Failed to obtain certificate".

(** Lines 163-177: the user and the client configuration. *)
Definition clientConfig (email : string) (privateKey : bytes) (caURL : string)
  : lego.Config :=
  {| lego.UserEmail := email;
     lego.UserKey := privateKey;
     lego.CADirURL :=
       if negb (String.eqb caURL "") then caURL
       else "https://acme-v02.api.letsencrypt.org/directory";
     lego.KeyType_ := lego.RSA2048 |}.

(** Lines 157-248: the HTTP-01 branch. *)
Definition http01 (certInfo : localtls.CertInfo) (domain email caURL : string)
  : M Empty_set :=
  let* _ := effect EvGenerateKey in
  let* privateKey := try (GenerateKey E) "Failed generating private key for user account" in
  let config := clientConfig email privateKey caURL in
  let* _ := effect (EvNewClient config) in
  let* _ := check (NewClient E config) "Failed to create new client" in
  let* _ := effect EvRegisterWithSolver in
  let* _ := check (RegisterWithSolver E) "Failed setting challenge provider" in
  let* reg := register in
  let request :=
    {| certificate.Domains := [domain];
       certificate.Bundle := true;
       certificate.ReqPrivateKey := tls.PrivateKey (localtls.KeyPair certInfo) |} in
  let* _ := log Info "Issuing certificate" in
  let* certificates := obtain request in
  let* _ := log Info "Finished issuing certificate" in
  return_ certificates None.

(** Lines 105-248: the challenge dispatch, reached when a new certificate
    is to be issued. *)
Definition issue (challengeType : string) (certInfo : localtls.CertInfo)
    (domain email caURL : string) : M Empty_set :=
  if String.eqb challengeType "DNS-01" then dns01 domain email caURL
  else http01 certInfo domain email caURL.

(** Lines 85-87: [if util.PathExists(f) { _ = os.Remove(f) }] *)
Definition clearBuffer (clusterCertFilename : string) : M unit :=
  let* present := PathExists clusterCertFilename in
  if present : bool then Remove clusterCertFilename else ret tt.

(** Lines 89-248: load the active certificate, decide, issue. *)
Definition renew (challengeType domain email caURL : string) (force : bool)
  : M Empty_set :=
  let* _ := effect (EvLoadCert (VarDir E)) in
  let* certInfo := try (LoadCert E (VarDir E)) "Failed to load certificate and key file" in
  let* leaf := index0 (tls.Certificate (localtls.KeyPair certInfo)) in
  let* cert := try (ParseCertificate E leaf) "Failed to parse certificate" in
  let* valid :=
    (if negb force then
       let* needs := certificateNeedsUpdate domain cert in ret (negb needs)
     else ret false) in
  if valid : bool then
    let* _ := log Debug
      "Skipping certificate renewal as it is still valid for more than 30 days" in
    return_ None None
  else issue challengeType certInfo domain email caURL.

(** [UpdateCertificate]: the state [s] and the challenge provider are the
    environment [E]. *)
Definition UpdateCertificate (challengeType : string) (clustered : bool)
    (domain email caURL : string) (force : bool) : M Empty_set :=
  let clusterCertFilename := VarPath E ClusterCertFilename in
  let* _ := bufferedCertificate clusterCertFilename clustered domain force in
  let* _ := clearBuffer clusterCertFilename in
  renew challengeType domain email caURL force.

End Program.

(** ** Stubs: a state directory, a CA and certificates to run the program on *)

Definition pem (s : string) : bytes := list_byte_of_string s.

Definition bytes_eqb (a b : bytes) : bool :=
  String.eqb (string_of_list_byte a) (string_of_list_byte b).

Definition day : time.Duration := 24 * time.Hour.

(** The stub parser knows three certificates, all for example.org: one
    expiring 90 days after time 0, one expiring 10 days after time 0, and
    the active certificate, whose expiry the scenario chooses. *)
Definition stubParse (activeNotAfter : time.Time) (der : bytes) : result x509.Certificate :=
  if bytes_eqb der (pem "fresh") then
    Ok {| x509.DNSNames := ["example.org"]; x509.NotAfter := 90 * day |}
  else if bytes_eqb der (pem "stale") then
    Ok {| x509.DNSNames := ["example.org"]; x509.NotAfter := 10 * day |}
  else if bytes_eqb der (pem "active") then
    Ok {| x509.DNSNames := ["example.org"]; x509.NotAfter := activeNotAfter |}
  else Err (ErrorString "x509: malformed certificate").

Definition stubKeyPair (cert key : bytes) : result tls.KeyPair :=
  if bytes_eqb key (pem "key") then
    Ok {| tls.Certificate := [cert]; tls.PrivateKey := key |}
  else Err (ErrorString "tls: failed to find any PEM data in key input").

Definition activeCertInfo : localtls.CertInfo :=
  {| localtls.KeyPair := {| tls.Certificate := [pem "active"]; tls.PrivateKey := pem "serverkey" |};
     localtls.PublicKey := pem "active";
     localtls.PrivateKey := pem "serverkey" |}.

Definition issuedCertInfo : localtls.CertInfo :=
  {| localtls.KeyPair := {| tls.Certificate := [pem "issued"]; tls.PrivateKey := pem "issuedkey" |};
     localtls.PublicKey := pem "issued";
     localtls.PrivateKey := pem "issuedkey" |}.

Definition issuedResource : certificate.Resource :=
  {| certificate.Certificate := pem "issued"; certificate.PrivateKey := pem "serverkey" |}.

Definition rateLimited : error :=
  ProblemDetails "urn:ietf:params:acme:error:rateLimited" "too many requests".

Definition timeout : error := ErrorString "i/o timeout".

(** A CA answering the calls before the [n]-th with [bad] and the others
    with [good]. *)
Definition after {A} (n : nat) (bad : error) (good : result A) (i : nat) : result A :=
  if (i <? n)%nat then Err bad else good.

Definition stubEnv (provider : string) (activeNotAfter : time.Time)
    (load : result localtls.CertInfo)
    (reg : nat -> result string) (obt : nat -> result certificate.Resource) : Env :=
  {| VarPath := fun name => "/var/lib/incus/" +:+ name;
     VarDir := "/var/lib/incus";
     X509KeyPair := stubKeyPair;
     ParseCertificate := stubParse activeNotAfter;
     LoadCert := fun _ => load;
     KeyPairAndCA := fun _ _ => Ok issuedCertInfo;
     ACMEDNS := (provider, ["DUMMY_TOKEN=t"], []);
     MkdirTemp := fun _ _ => Ok "/tmp/lego1";
     RemoveAll := fun _ => None;
     Environ := ["PATH=/usr/bin"];
     RunCommandSplit := fun _ _ _ => None;
     GenerateKey := Ok (pem "accountkey");
     NewClient := fun _ => None;
     RegisterWithSolver := None;
     Register := reg;
     Obtain := fun _ => obt |}.

(** A CA that answers every call, behind the given DNS provider setting
    and active certificate expiry. *)
Definition caUp (provider : string) (activeNotAfter : time.Time) : Env :=
  stubEnv provider activeNotAfter (Ok activeCertInfo)
    (fun _ => Ok "https://ca.example/acct/1") (fun _ => Ok issuedResource).

(** No active certificate in the state directory. *)
Definition noActive : Env :=
  stubEnv "dummy" 0 (Err (ErrorString "open /var/lib/incus/server.crt: no such file or directory"))
    (fun _ => Ok "https://ca.example/acct/1") (fun _ => Ok issuedResource).

Definition bufferPath : string := "/var/lib/incus/cluster.crt.new".
Definition keyPath : string := "/var/lib/incus/cluster.key".

(** The CA fails twice with a timeout, then answers with a rate limit. *)
Definition caRateLimits : Env :=
  stubEnv "dummy" (10 * day) (Ok activeCertInfo)
    (after 2 timeout (Err rateLimited)) (after 2 timeout (Err rateLimited)).

(** The CA fails four times with a timeout, then succeeds. *)
Definition caRecovers : Env :=
  stubEnv "dummy" (10 * day) (Ok activeCertInfo)
    (after 4 timeout (Ok "https://ca.example/acct/1")) (after 4 timeout (Ok issuedResource)).

(** The CA fails with a timeout whenever it is called. *)
Definition caDown : Env :=
  stubEnv "dummy" (10 * day) (Ok activeCertInfo)
    (fun _ => Err timeout) (fun _ => Err timeout).

Definition exampleRequest : certificate.ObtainRequest :=
  {| certificate.Domains := ["example.org"]; certificate.Bundle := true;
     certificate.ReqPrivateKey := pem "serverkey" |}.

(** A state directory holding the given entries, at time 0, before any
    call to the CA. *)
Definition world (entries : list (string * node)) : World :=
  {| fs := list_to_map entries; clock := 0; registerCalls := 0%nat;
     obtainCalls := 0%nat; trace := [] |}.

(** State directories: a fresh buffer, a stale buffer, a buffer that cannot
    be read, a buffer whose key file is no key. *)
Definition freshBuffer : World :=
  world [(bufferPath, File (pem "fresh")); (keyPath, File (pem "key"))].
Definition staleBuffer : World :=
  world [(bufferPath, File (pem "stale")); (keyPath, File (pem "key"))].
Definition unreadableBuffer : World :=
  world [(bufferPath, Unreadable (ErrorString "permission denied"));
         (keyPath, File (pem "key"))].
Definition brokenPair : World :=
  world [(bufferPath, File (pem "fresh")); (keyPath, File (pem "garbage"))].

(** The solver cannot be registered with the client. *)
Definition noSolver : Env :=
  {| VarPath := VarPath caDown; VarDir := VarDir caDown;
     X509KeyPair := X509KeyPair caDown; ParseCertificate := ParseCertificate caDown;
     LoadCert := LoadCert caDown; KeyPairAndCA := KeyPairAndCA caDown;
     ACMEDNS := ACMEDNS caDown; MkdirTemp := MkdirTemp caDown;
     RemoveAll := RemoveAll caDown; Environ := Environ caDown;
     RunCommandSplit := RunCommandSplit caDown;
     GenerateKey := GenerateKey caDown; NewClient := NewClient caDown;
     RegisterWithSolver := Some (ErrorString "no solver");
     Register := Register caDown; Obtain := Obtain caDown |}.

(** Registration succeeds at the fifth attempt, issuance never. *)
Definition caFlaky : Env :=
  stubEnv "dummy" (10 * day) (Ok activeCertInfo)
    (after 4 timeout (Ok "https://ca.example/acct/1")) (fun _ => Err timeout).

(** * The database code generator's names (package db)

    [operation], [activeFilters] and [activeCriteria] work on the kind of a
    statement, such as [objects-by-Name-and-Project].  The functions of Go's
    [strings] package they use are written out for byte strings. *)

(** [s[n:]] and [s[:n]] for [0 <= n <= len(s)]. *)
Fixpoint drop_bytes (n : nat) (s : string) : string :=
  match n, s with
  | S n', String _ s' => drop_bytes n' s'
  | _, _ => s
  end.

Fixpoint take_bytes (n : nat) (s : string) : string :=
  match n, s with
  | S n', String c s' => String c (take_bytes n' s')
  | _, _ => EmptyString
  end.

(** [strings.Index]: the index of the first instance of [substr] in [s], or
    -1 if there is none. *)
Fixpoint strings_Index (s substr : string) : Z :=
  if String.prefix substr s then 0
  else
    match s with
    | EmptyString => -1
    | String _ s' =>
        let i := strings_Index s' substr in
        if i <? 0 then -1 else i + 1
    end.

(** The loop of [strings.Split] for a separator that is not empty: cut at
    the first instance of [sep] and go on after it, at most [n] times. *)
Fixpoint genSplit (n : nat) (s sep : string) : list string :=
  match n with
  | O => [s]
  | S n' =>
      let m := strings_Index s sep in
      if m <? 0 then [s]
      else
        take_bytes (Z.to_nat m) s
        :: genSplit n' (drop_bytes (Z.to_nat m + String.length sep) s) sep
  end.

(** [strings.Split(s, sep)] for [sep] not empty: there are no more
    instances of [sep] in [s] than bytes. *)
Definition strings_Split (s sep : string) : list string :=
  genSplit (String.length s) s sep.

(** [strings.Join] *)
Fixpoint strings_Join (elems : list string) (sep : string) : string :=
  match elems with
  | [] => EmptyString
  | [e] => e
  | e :: rest => e +:+ sep +:+ strings_Join rest sep
  end.

(** [operation]: the kind of operation being performed, without filter
    fields.  [None] stands for the panic of indexing an empty slice. *)
Definition operation (kind : string) : option string :=
  match strings_Split kind "-by-" with
  | first :: _ => Some first
  | [] => None
  end.

(** [activeFilters]: the filters mentioned in the command name.  [None]
    stands for the panic of [kind[startIndex:]] out of range. *)
Definition activeFilters (kind : string) : option (list string) :=
  let startIndex := strings_Index kind "-by-" + Z.of_nat (String.length "-by-") in
  if (0 <=? startIndex) && (startIndex <=? Z.of_nat (String.length kind)) then
    Some (strings_Split (drop_bytes (Z.to_nat startIndex) kind) "-and-")
  else None.

(** The first loop of [activeCriteria], from index [i] on. *)
Fixpoint activeCriteria_filter (i : nat) (filter : list string) (expr : string)
  : string :=
  match filter with
  | [] => expr
  | name :: rest =>
      let expr := if (0 <? i)%nat then expr +:+ " && " else expr in
      activeCriteria_filter (S i) rest (expr +:+ "filter." +:+ name +:+ " != nil")
  end.

(** The second loop of [activeCriteria]. *)
Fixpoint activeCriteria_ignored (ignoredFilter : list string) (expr : string)
  : string :=
  match ignoredFilter with
  | [] => expr
  | name :: rest =>
      let expr := if (0 <? String.length expr)%nat then expr +:+ " && " else expr in
      activeCriteria_ignored rest (expr +:+ "filter." +:+ name +:+ " == nil")
  end.

(** [activeCriteria]: an expression evaluating if a filter should be used. *)
Definition activeCriteria (filter ignoredFilter : list string) : string :=
  activeCriteria_ignored ignoredFilter (activeCriteria_filter 0 filter EmptyString).

(** ** Vocabulary of the statements *)

(** The events of one failed attempt that is followed by a retry. *)
Definition failedRound (attempt : event) (warning : string) : list event :=
  [attempt; EvLog Warn warning; EvSleep (10 * time.Second)].

Fixpoint rounds (k : nat) (attempt : event) (warning : string) : list event :=
  match k with
  | O => []
  | S k' => failedRound attempt warning ++ rounds k' attempt warning
  end.

(** The [k] answers of the CA from call [from] on are errors that are not
    classified as a rate limit. *)
Definition genericFailures {A} (script : nat -> result A) (from k : nat) : Prop :=
  forall i, (i < k)%nat ->
    exists e, script (from + i)%nat = Err e /\ isRateLimited e = false.

(** [w'] differs from [w] by further effects that leave the state
    directory as it is. *)
Definition frame (w w' : World) : Prop :=
  fs w' = fs w /\ exists tr, trace w' = trace w ++ tr.

Definition framed {A} (m : M A) : Prop := forall w, frame w (snd (m w)).

(** The configuration error of line 109. *)
Definition noProviderError : error :=
  ErrorString
    "DNS-01 challenge type requires acme.dns.provider configuration key to be set".

(** The default of line 174. *)
Definition letsEncryptURL : string :=
  "https://acme-v02.api.letsencrypt.org/directory".

(** How a loop of [n] iterations ends after [k] failed rounds, in the world
    [w']: with a last attempt that succeeds or is rate limited, or with the
    iterations used up. *)
Definition loopEnd {A} (script : nat -> result A) (calls : World -> nat)
    (ev : event) (warning : string) (n k : nat) (w w' : World)
    (val : option A) (err : option error) (out : option A * option error) : Prop :=
  ((k < n)%nat /\ trace w' = trace w ++ rounds k ev warning ++ [ev] /\
     calls w' = S (calls w + k) /\
     ((exists a, script (calls w + k)%nat = Ok a /\ out = (Some a, None)) \/
      (exists e, script (calls w + k)%nat = Err e /\ isRateLimited e = true /\
                 out = (None, Some e))))
  \/ (k = n /\ trace w' = trace w ++ rounds n ev warning /\
      calls w' = (calls w + n)%nat /\
      match n with
      | O => out = (val, err)
      | S m => exists e, script (calls w + m)%nat = Err e /\ out = (None, Some e)
      end).

(** The effects [tr] of a phase stay within the budget: [k] failed rounds,
    each a failure that is not a rate limit followed by a warning and a
    sleep of 10 seconds, then at most one more attempt, which is not such a
    failure; at most [retries] attempts in all. *)
Definition withinBudget {A} (script : nat -> result A) (from : nat)
    (ev : event) (warning : string) (tr : list event) : Prop :=
  exists k last,
    tr = rounds k ev warning ++ last /\
    (k + length last <= retries)%nat /\
    genericFailures script from k /\
    (last = [] \/
     last = [ev] /\
       ((exists a, script (from + k)%nat = Ok a) \/
        (exists e, script (from + k)%nat = Err e /\ isRateLimited e = true))).

Definition isSleep (e : event) : bool :=
  match e with EvSleep _ => true | _ => false end.

Definition isAttempt (e : event) : bool :=
  match e with EvRegister | EvObtain _ => true | _ => false end.

Definition count (p : event -> bool) (tr : list event) : nat :=
  length (List.filter p tr).

(** ** Vocabulary of the further properties *)

(** Every effect of [m] satisfies [P]. *)
Definition effects (P : event -> Prop) {A} (m : M A) : Prop :=
  forall w, exists tr, trace (snd (m w)) = trace w ++ tr /\ Forall P tr.

(** What a call [UpdateCertificate E challengeType clustered domain email
    caURL force] may do, effect by effect. *)
Definition allowed (E : Env) (challengeType : string) (clustered : bool)
    (domain email caURL : string) (force : bool) (e : event) : Prop :=
  match e with
  | EvReadFile p =>
      clustered = true /\ force = false /\
      (p = VarPath E ClusterCertFilename \/ p = VarPath E "cluster.key")
  | EvRemove p => p = VarPath E ClusterCertFilename
  | EvLoadCert d => d = VarDir E
  | EvLog _ _ => True
  | EvMkdirTemp d pat => challengeType = "DNS-01" /\ d = "" /\ pat = "lego"
  | EvRemoveAll p => challengeType = "DNS-01" /\ MkdirTemp E "" "lego" = Ok p
  | EvRunCommand env cmd args =>
      challengeType = "DNS-01" /\ cmd = "lego" /\
      exists tmpDir, MkdirTemp E "" "lego" = Ok tmpDir /\
        env = Environ E ++ (ACMEDNS E).1.2 /\
        args = legoArgs (ACMEDNS E).1.1 domain email tmpDir caURL (ACMEDNS E).2
  | EvKeyPairAndCA dir prefix =>
      challengeType = "DNS-01" /\ prefix = domain /\
      exists tmpDir, MkdirTemp E "" "lego" = Ok tmpDir /\
        dir = tmpDir +:+ "/certificates"
  | EvGenerateKey | EvRegisterWithSolver | EvRegister => challengeType <> "DNS-01"
  | EvNewClient cfg =>
      challengeType <> "DNS-01" /\
      exists accountKey, GenerateKey E = Ok accountKey /\
        cfg = clientConfig email accountKey caURL
  | EvObtain req =>
      challengeType <> "DNS-01" /\
      exists certInfo, LoadCert E (VarDir E) = Ok certInfo /\
        req = {| certificate.Domains := [domain]; certificate.Bundle := true;
                 certificate.ReqPrivateKey :=
                   tls.PrivateKey (localtls.KeyPair certInfo) |}
  | EvSleep d => challengeType <> "DNS-01" /\ d = 10 * time.Second
  end.

Definition isReadFile (e : event) : bool :=
  match e with EvReadFile _ => true | _ => false end.

Definition isSubprocess (e : event) : bool :=
  match e with
  | EvMkdirTemp _ _ | EvRunCommand _ _ _ | EvKeyPairAndCA _ _ | EvRemoveAll _ => true
  | _ => false
  end.

(** The calls of the ACME client: key, client, solver, registration,
    issuance, and the sleeps between attempts. *)
Definition isACME (e : event) : bool :=
  match e with
  | EvGenerateKey | EvNewClient _ | EvRegisterWithSolver | EvRegister
  | EvObtain _ | EvSleep _ => true
  | _ => false
  end.

(** Effects that neither touch a temporary directory or a subprocess nor
    use the ACME client. *)
Definition isQuiet (e : event) : bool := negb (isSubprocess e || isACME e).

Definition isRunCommand (e : event) : bool :=
  match e with EvRunCommand _ _ _ => true | _ => false end.

(** What follows the removal of the temporary directory: a warning when the
    removal fails, nothing otherwise. *)
Definition removalWarning (E : Env) (tmpDir : string) : list event :=
  match RemoveAll E tmpDir with
  | Some _ => [EvLog Warn "Failed to remove temporary directory"]
  | None => []
  end.

(** From [w] to [w'] at most [s] sleeps and [a] calls to the CA have
    happened, and the clock has advanced by 10 seconds for each sleep. *)
Definition spent (s a : nat) (w w' : World) : Prop :=
  exists tr, trace w' = trace w ++ tr /\
    (count isSleep tr <= s)%nat /\ (count isAttempt tr <= a)%nat /\
    clock w' = clock w + Z.of_nat (count isSleep tr) * (10 * time.Second).

Definition spending (s a : nat) {A} (m : M A) : Prop :=
  forall w, spent s a w (snd (m w)).

(** ** The world and the monad *)

Lemma logged_nil (w : World) : logged [] w = w.
Proof. destruct w; unfold logged; simpl. by rewrite app_nil_r. Qed.

Lemma logged_logged (a b : list event) (w : World) :
  logged b (logged a w) = logged (a ++ b) w.
Proof. unfold logged; simpl. by rewrite app_assoc. Qed.

Lemma bind_Next {A B} (m : M A) (k : A -> M B) (w w' : World) (a : A) :
  m w = (Next a, w') -> bind m k w = k a w'.
Proof. intros H. unfold bind. by rewrite H. Qed.

Lemma slices_Contains_In (s : list string) (v : string) :
  slices_Contains s v = true <-> In v s.
Proof.
  induction s as [|x s IH]; simpl.
  - split; [discriminate | tauto].
  - destruct (String.eqb_spec x v) as [->|Hne].
    + tauto.
    + rewrite IH. split; [tauto | intros [H|H]; [congruence | exact H]].
Qed.

(** ** The renewal policy *)

Lemma certificateNeedsUpdate_run (domain : string) (cert : x509.Certificate) (w : World) :
  certificateNeedsUpdate domain cert w =
    (Next (negb (slices_Contains (x509.DNSNames cert) domain)
           || time.After (clock w)
                (time.Add (x509.NotAfter cert) (-30 * 24 * time.Hour))), w).
Proof. reflexivity. Qed.

(** The decision reads nothing of the world but its clock. *)
Lemma certificateNeedsUpdate_clock (domain : string) (cert : x509.Certificate) (w w' : World) :
  clock w' = clock w ->
  fst (certificateNeedsUpdate domain cert w') = fst (certificateNeedsUpdate domain cert w).
Proof. intros H. rewrite !certificateNeedsUpdate_run. simpl. by rewrite H. Qed.

(** C1. For every domain [d], certificate [c] and world [w],
    [certificateNeedsUpdate d c] leaves the world as it is and answers [true]
    exactly when [d] is not among the DNS names of [c] or the clock of [w] is
    after [c.NotAfter] minus 30 days; the latter says as much as: the clock
    plus 30 days is past [c.NotAfter].  The answer is a function of [d], [c]
    and the clock alone. *)
Theorem certificateNeedsUpdate_spec (d : string) (c : x509.Certificate) (w : World) :
  exists b : bool,
    certificateNeedsUpdate d c w = (Next b, w) /\
    (b = true <->
       ~ In d (x509.DNSNames c) \/ x509.NotAfter c - 30 * day < clock w) /\
    (x509.NotAfter c - 30 * day < clock w <-> x509.NotAfter c < clock w + 30 * day) /\
    (forall w' : World, clock w' = clock w ->
       certificateNeedsUpdate d c w' = (Next b, w')).
Proof.
  eexists. split; [apply certificateNeedsUpdate_run|].
  unfold time.After, time.Add.
  assert (Hd : x509.NotAfter c + -30 * 24 * time.Hour = x509.NotAfter c - 30 * day)
    by (unfold day; lia).
  split; [|split].
  - rewrite orb_true_iff, negb_true_iff, Hd, Z.ltb_lt.
    rewrite <- slices_Contains_In.
    destruct (slices_Contains (x509.DNSNames c) d); split.
    + intros [H|H]; [inversion H | right; exact H].
    + intros [H|H]; [exfalso; apply H; reflexivity | right; exact H].
    + intros _. left. intros H; inversion H.
    + intros _. left. reflexivity.
  - lia.
  - intros w' Hw. rewrite certificateNeedsUpdate_run, Hw. reflexivity.
Qed.

(** ** Frames: what a part of the program leaves alone *)

Lemma frame_refl (w : World) : frame w w.
Proof. split; [reflexivity | exists []; by rewrite app_nil_r]. Qed.

Lemma frame_trans (w1 w2 w3 : World) : frame w1 w2 -> frame w2 w3 -> frame w1 w3.
Proof.
  intros [Hf1 [t1 Ht1]] [Hf2 [t2 Ht2]]. split; [congruence|].
  exists (t1 ++ t2). by rewrite Ht2, Ht1, app_assoc.
Qed.

Lemma frame_logged (evs : list event) (w : World) : frame w (logged evs w).
Proof. split; [reflexivity | by exists evs]. Qed.

Lemma framed_ret {A} (a : A) : framed (ret a).
Proof. intros w. apply frame_refl. Qed.

Lemma framed_return {A} r e : framed (@return_ A r e).
Proof. intros w. apply frame_refl. Qed.

Lemma framed_panic {A} : framed (@panic A).
Proof. intros w. apply frame_refl. Qed.

Lemma framed_bind {A B} (m : M A) (k : A -> M B) :
  framed m -> (forall a, framed (k a)) -> framed (bind m k).
Proof.
  intros Hm Hk w. unfold bind. specialize (Hm w).
  destruct (m w) as [[a| |] w']; simpl in *; try exact Hm.
  eapply frame_trans; [exact Hm | apply Hk].
Qed.

Lemma framed_effect (e : event) : framed (effect e).
Proof. intros w. apply frame_logged. Qed.

Lemma framed_log (l : level) (msg : string) : framed (log l msg).
Proof. apply framed_effect. Qed.

Lemma framed_try {A} (r : result A) (msg : string) : framed (try r msg).
Proof. destruct r; [apply framed_ret | apply framed_return]. Qed.

Lemma framed_check (r : option error) (msg : string) : framed (check r msg).
Proof. destruct r; [apply framed_return | apply framed_ret]. Qed.

Lemma framed_index0 (chain : list bytes) : framed (index0 chain).
Proof. destruct chain; [apply framed_panic | apply framed_ret]. Qed.

Lemma framed_Sleep (d : time.Duration) : framed (Sleep d).
Proof. intros w. split; [reflexivity | by eexists]. Qed.

Lemma framed_certificateNeedsUpdate domain cert : framed (certificateNeedsUpdate domain cert).
Proof. intros w. apply frame_refl. Qed.

Lemma framed_ReadFile (path : string) : framed (ReadFile path).
Proof. intros w. apply frame_logged. Qed.

Lemma framed_Registration_Register (E : Env) : framed (Registration_Register E).
Proof. intros w. split; [reflexivity | by eexists]. Qed.

Lemma framed_Certificate_Obtain (E : Env) request : framed (Certificate_Obtain E request).
Proof. intros w. split; [reflexivity | by eexists]. Qed.

Lemma framed_defer {A} (cleanup : World -> World) (body : M A) :
  (forall w, frame w (cleanup w)) -> framed body -> framed (defer cleanup body).
Proof.
  intros Hc Hb w. unfold defer. specialize (Hb w).
  destruct (body w) as [o w']; simpl in *.
  eapply frame_trans; [exact Hb | apply Hc].
Qed.

Lemma frame_removeTmpDir (E : Env) (tmpDir : string) (w : World) :
  frame w (removeTmpDir E tmpDir w).
Proof.
  unfold removeTmpDir. destruct (RemoveAll E tmpDir).
  - eapply frame_trans; apply frame_logged.
  - apply frame_logged.
Qed.

Lemma framed_retryLoop {A} (attempt : M (result A)) (warning : string) (n : nat) :
  framed attempt -> forall val err, framed (retryLoop attempt warning n val err).
Proof.
  intros Ha. induction n as [|n IH]; intros val err; simpl.
  - apply framed_ret.
  - apply framed_bind; [exact Ha|]. intros [a|e]; [apply framed_ret|].
    destruct (isRateLimited e); [apply framed_ret|].
    apply framed_bind; [apply framed_log|]. intros _.
    apply framed_bind; [apply framed_Sleep|]. intros _. apply IH.
Qed.

Lemma framed_retried {A} (attempt : M (result A)) (warning failure : string) :
  framed attempt -> framed (retried attempt warning failure).
Proof.
  intros Ha. unfold retried.
  apply framed_bind; [by apply framed_retryLoop|]. intros [val err].
  apply framed_bind; [apply framed_check|]. intros _. apply framed_ret.
Qed.

Create HintDb frames.
#[local] Hint Resolve framed_ret framed_return framed_panic framed_effect
  framed_log framed_try framed_check framed_index0 framed_Sleep
  framed_certificateNeedsUpdate framed_ReadFile framed_Registration_Register
  framed_Certificate_Obtain frame_removeTmpDir framed_retried : frames.

Ltac framing :=
  repeat first
    [ apply framed_bind; [solve [auto with frames] | intros ?]
    | apply framed_defer; [solve [auto with frames] |]
    | solve [auto with frames] ].

Lemma framed_dns01 (E : Env) (domain email caURL : string) :
  framed (dns01 E domain email caURL).
Proof.
  unfold dns01. destruct (ACMEDNS E) as [[provider environment] resolvers].
  destruct (String.eqb provider ""); framing.
Qed.

Lemma framed_http01 (E : Env) certInfo (domain email caURL : string) :
  framed (http01 E certInfo domain email caURL).
Proof. unfold http01, register, obtain. framing. Qed.

Lemma framed_issue (E : Env) challengeType certInfo (domain email caURL : string) :
  framed (issue E challengeType certInfo domain email caURL).
Proof.
  unfold issue. destruct (String.eqb challengeType "DNS-01");
    [apply framed_dns01 | apply framed_http01].
Qed.

(** [renew] first loads the active certificate and never touches the state
    directory. *)
Lemma renew_frame (E : Env) (challengeType domain email caURL : string)
    (force : bool) (w : World) :
  let w' := snd (renew E challengeType domain email caURL force w) in
  fs w' = fs w /\ exists tr, trace w' = trace w ++ EvLoadCert (VarDir E) :: tr.
Proof.
  assert (Hrest : forall k : unit -> M Empty_set, (forall u, framed (k u)) ->
            let w' := snd (bind (effect (EvLoadCert (VarDir E))) k w) in
            fs w' = fs w /\ exists tr, trace w' = trace w ++ EvLoadCert (VarDir E) :: tr).
  { intros k Hk. unfold bind, effect. simpl.
    destruct (Hk tt (emit (EvLoadCert (VarDir E)) w)) as [Hf [tr Ht]].
    split; [exact Hf|]. exists tr. rewrite Ht. simpl. by rewrite <- app_assoc. }
  apply Hrest. intros _.
  apply framed_bind; [auto with frames|]. intros certInfo.
  apply framed_bind; [auto with frames|]. intros leaf.
  apply framed_bind; [auto with frames|]. intros cert.
  apply framed_bind.
  - destruct force; simpl; framing.
  - intros [|]; [framing | apply framed_issue].
Qed.

(** ** The retry loop against a scripted CA *)

Section Retry.
Context {A : Type} (attempt : M (result A)) (warning failure : string).
(** The attempt is the next call to a CA that answers by a script. *)
Context (script : nat -> result A) (calls : World -> nat) (ev : event).
Hypothesis attempt_run : forall w, exists w',
  attempt w = (Next (script (calls w)), w') /\
  fs w' = fs w /\ clock w' = clock w /\
  trace w' = trace w ++ [ev] /\ calls w' = S (calls w).
Hypothesis calls_logged : forall evs w, calls (logged evs w) = calls w.
Hypothesis calls_Sleep : forall d w, calls (snd (Sleep d w)) = calls w.

Lemma retryLoop_run (n : nat) : forall w val err, exists k out w',
  retryLoop attempt warning n val err w = (Next out, w') /\
  (k <= n)%nat /\ genericFailures script (calls w) k /\
  fs w' = fs w /\ clock w' = clock w + Z.of_nat k * (10 * time.Second) /\
  loopEnd script calls ev warning n k w w' val err out.
Proof.
  unfold loopEnd. induction n as [|n IH]; intros w val err.
  - exists O, (val, err), w. simpl. split; [reflexivity|]. split; [lia|].
    split; [intros i Hi; lia|]. split; [reflexivity|]. split; [lia|].
    right. rewrite app_nil_r, Nat.add_0_r. auto.
  - destruct (attempt_run w) as (w1 & Hrun & Hfs1 & Hck1 & Htr1 & Hc1).
    simpl. rewrite (bind_Next _ _ _ _ _ Hrun).
    destruct (script (calls w)) as [a|e] eqn:Hs.
    + exists O, (Some a, None), w1. split; [reflexivity|]. split; [lia|].
      split; [intros i Hi; lia|]. split; [exact Hfs1|]. split; [lia|].
      left. simpl. rewrite Nat.add_0_r, Hs. repeat split; eauto with lia.
    + destruct (isRateLimited e) eqn:Hrl.
      * exists O, (None, Some e), w1. split; [reflexivity|]. split; [lia|].
        split; [intros i Hi; lia|]. split; [exact Hfs1|]. split; [lia|].
        left. simpl. rewrite Nat.add_0_r, Hs. repeat split; eauto with lia.
      * unfold bind at 1, log, effect. unfold bind at 1.
        set (w2 := snd (Sleep (10 * time.Second) (emit (EvLog Warn warning) w1))).
        change (Sleep (10 * time.Second) (emit (EvLog Warn warning) w1))
          with (Next tt, w2).
        assert (Hc2 : calls w2 = S (calls w)).
        { unfold w2. rewrite calls_Sleep. unfold emit. by rewrite calls_logged. }
        assert (Htr2 : trace w2 = trace w ++ failedRound ev warning).
        { unfold w2. simpl. rewrite Htr1, <- !app_assoc. reflexivity. }
        assert (Hck2 : clock w2 = clock w + 10 * time.Second).
        { unfold w2. simpl. unfold time.Add. by rewrite Hck1. }
        assert (Hfs2 : fs w2 = fs w) by exact Hfs1.
        destruct (IH w2 None (Some e)) as (k & out & w' & Hloop & Hk & Hgen & Hfs & Hck & Hend).
        exists (S k), out, w'. split; [exact Hloop|]. split; [lia|].
        split.
        { intros i Hi. destruct i as [|i].
          - exists e. rewrite Nat.add_0_r. auto.
          - destruct (Hgen i ltac:(lia)) as (e' & He' & Hrl').
            exists e'. rewrite Hc2 in He'.
            replace (calls w + S i)%nat with (S (calls w) + i)%nat by lia. auto. }
        split; [congruence|]. split; [rewrite Hck, Hck2; lia|].
        rewrite Hc2, Htr2 in Hend.
        destruct Hend as [(Hlt & Htr & Hc & Hout) | (-> & Htr & Hc & Hout)].
        { left. split; [lia|]. split; [rewrite Htr; simpl; by rewrite <- !app_assoc|].
          split; [lia|].
          replace (calls w + S k)%nat with (S (calls w) + k)%nat by lia. exact Hout. }
        { right. split; [reflexivity|].
          split; [rewrite Htr; simpl; by rewrite <- !app_assoc|].
          split; [lia|]. destruct n as [|m].
          - exists e. rewrite Nat.add_0_r. auto.
          - destruct Hout as (e' & He' & Hout). exists e'.
            replace (calls w + S m)%nat with (S (calls w) + m)%nat by lia. auto. }
Qed.

(** The whole phase: the loop with the budget [retries] and its check. *)
Lemma retried_run (w : World) : exists k w',
  (k <= retries)%nat /\ genericFailures script (calls w) k /\
  fs w' = fs w /\ clock w' = clock w + Z.of_nat k * (10 * time.Second) /\
  (((k < retries)%nat /\
      trace w' = trace w ++ rounds k ev warning ++ [ev] /\
      ((exists a, script (calls w + k)%nat = Ok a /\
          retried attempt warning failure w = (Next (Some a), w')) \/
       (exists e, script (calls w + k)%nat = Err e /\ isRateLimited e = true /\
          retried attempt warning failure w =
            (Return None (Some (Errorf failure e)), w'))))
   \/ (k = retries /\ trace w' = trace w ++ rounds retries ev warning /\
       exists e, script (calls w + 4)%nat = Err e /\
         retried attempt warning failure w =
           (Return None (Some (Errorf failure e)), w'))).
Proof.
  destruct (retryLoop_run retries w None None)
    as (k & out & w' & Hloop & Hk & Hgen & Hfs & Hck & Hend).
  exists k, w'. split; [exact Hk|]. split; [exact Hgen|].
  split; [exact Hfs|]. split; [exact Hck|].
  unfold retried. rewrite (bind_Next _ _ _ _ _ Hloop).
  destruct Hend as [(Hlt & Htr & _ & Hout) | (-> & Htr & _ & Hout)].
  - left. split; [exact Hlt|]. split; [exact Htr|].
    destruct Hout as [(a & Hs & ->) | (e & Hs & Hrl & ->)].
    + left. exists a. split; [exact Hs | reflexivity].
    + right. exists e. split; [exact Hs|]. split; [exact Hrl | reflexivity].
  - right. split; [reflexivity|]. split; [exact Htr|].
    simpl in Hout. destruct Hout as (e & Hs & ->).
    exists e. split; [exact Hs | reflexivity].
Qed.

(** The script decides the number of failed rounds. *)
Lemma generic_not_end (w : World) (k k' : nat) :
  genericFailures script (calls w) k -> (k' < k)%nat ->
  (exists a, script (calls w + k')%nat = Ok a) \/
  (exists e, script (calls w + k')%nat = Err e /\ isRateLimited e = true) ->
  False.
Proof.
  intros Hgen Hlt Hend. destruct (Hgen k' Hlt) as (e & He & Hrl).
  destruct Hend as [(a & Ha) | (e' & He' & Hrl')]; congruence.
Qed.

(** A rate limit at attempt [k + 1], after [k] other failures. *)
Lemma retried_rate_limited (w : World) (k : nat) (e : error) :
  (k < retries)%nat -> genericFailures script (calls w) k ->
  script (calls w + k)%nat = Err e -> isRateLimited e = true ->
  exists w',
    retried attempt warning failure w = (Return None (Some (Errorf failure e)), w') /\
    trace w' = trace w ++ rounds k ev warning ++ [ev] /\
    clock w' = clock w + Z.of_nat k * (10 * time.Second) /\ fs w' = fs w.
Proof.
  intros Hk Hgen Hs Hrl.
  destruct (retried_run w) as (k' & w' & Hk' & Hgen' & Hfs & Hck & Hend).
  assert (k' = k) as ->.
  { destruct (lt_eq_lt_dec k' k) as [[Hlt|Heq]|Hgt]; [|exact Heq|].
    - exfalso. destruct Hend as [(_ & _ & Hend) | (-> & _)]; [|lia].
      apply (generic_not_end w k k' Hgen Hlt).
      destruct Hend as [(a & Ha & _) | (e' & He' & Hrl' & _)]; eauto.
    - exfalso. apply (generic_not_end w k' k Hgen' Hgt). eauto. }
  exists w'. destruct Hend as [(_ & Htr & Hend) | (-> & _)]; [|lia].
  destruct Hend as [(a & Ha & _) | (e' & He' & _ & Hres)]; [congruence|].
  assert (e' = e) as -> by congruence. auto.
Qed.

(** Success at attempt [k + 1], after [k] failures that are retried. *)
Lemma retried_success (w : World) (k : nat) (a : A) :
  (k < retries)%nat -> genericFailures script (calls w) k ->
  script (calls w + k)%nat = Ok a ->
  exists w',
    retried attempt warning failure w = (Next (Some a), w') /\
    trace w' = trace w ++ rounds k ev warning ++ [ev] /\
    clock w' = clock w + Z.of_nat k * (10 * time.Second) /\ fs w' = fs w.
Proof.
  intros Hk Hgen Hs.
  destruct (retried_run w) as (k' & w' & Hk' & Hgen' & Hfs & Hck & Hend).
  assert (k' = k) as ->.
  { destruct (lt_eq_lt_dec k' k) as [[Hlt|Heq]|Hgt]; [|exact Heq|].
    - exfalso. destruct Hend as [(_ & _ & Hend) | (-> & _)]; [|lia].
      apply (generic_not_end w k k' Hgen Hlt).
      destruct Hend as [(a' & Ha & _) | (e' & He' & Hrl' & _)]; eauto.
    - exfalso. apply (generic_not_end w k' k Hgen' Hgt). eauto. }
  exists w'. destruct Hend as [(_ & Htr & Hend) | (-> & _)]; [|lia].
  destruct Hend as [(a' & Ha & Hres) | (e' & He' & _)]; [|congruence].
  assert (a' = a) as -> by congruence. auto.
Qed.

(** The budget used up: [retries] failures, none of them a rate limit. *)
Lemma retried_exhausted (w : World) (e : error) :
  genericFailures script (calls w) retries ->
  script (calls w + 4)%nat = Err e ->
  exists w',
    retried attempt warning failure w = (Return None (Some (Errorf failure e)), w') /\
    trace w' = trace w ++ rounds retries ev warning /\
    clock w' = clock w + Z.of_nat retries * (10 * time.Second) /\ fs w' = fs w.
Proof.
  intros Hgen Hs.
  destruct (retried_run w) as (k' & w' & Hk' & Hgen' & Hfs & Hck & Hend).
  destruct Hend as [(Hlt & _ & Hend) | (-> & Htr & e' & He' & Hres)].
  - exfalso. apply (generic_not_end w retries k' Hgen Hlt).
    destruct Hend as [(a' & Ha & _) | (e' & He' & Hrl' & _)]; eauto.
  - exists w'. assert (e' = e) as -> by congruence. auto.
Qed.

End Retry.

(** ** The two loops of [UpdateCertificate] *)

Lemma Registration_Register_run (E : Env) (w : World) : exists w',
  Registration_Register E w = (Next (Register E (registerCalls w)), w') /\
  fs w' = fs w /\ clock w' = clock w /\
  trace w' = trace w ++ [EvRegister] /\ registerCalls w' = S (registerCalls w).
Proof. eexists. split; [reflexivity|]. simpl. auto. Qed.

Lemma Certificate_Obtain_run (E : Env) (request : certificate.ObtainRequest) (w : World) :
  exists w',
    Certificate_Obtain E request w = (Next (Obtain E request (obtainCalls w)), w') /\
    fs w' = fs w /\ clock w' = clock w /\
    trace w' = trace w ++ [EvObtain request] /\ obtainCalls w' = S (obtainCalls w).
Proof. eexists. split; [reflexivity|]. simpl. auto. Qed.

Lemma count_app (p : event -> bool) (a b : list event) :
  count p (a ++ b) = (count p a + count p b)%nat.
Proof. unfold count. by rewrite List.filter_app, length_app. Qed.

Lemma count_rounds_sleep (k : nat) (ev : event) (warning : string) :
  isSleep ev = false -> count isSleep (rounds k ev warning) = k.
Proof.
  intros H. induction k as [|k IH]; [reflexivity|].
  change (rounds (S k) ev warning) with (failedRound ev warning ++ rounds k ev warning).
  rewrite count_app, IH. unfold count. simpl. by rewrite H.
Qed.

Lemma count_rounds_attempt (k : nat) (ev : event) (warning : string) :
  isAttempt ev = true -> count isAttempt (rounds k ev warning) = k.
Proof.
  intros H. induction k as [|k IH]; [reflexivity|].
  change (rounds (S k) ev warning) with (failedRound ev warning ++ rounds k ev warning).
  rewrite count_app, IH. unfold count. simpl. by rewrite H.
Qed.

(** C3. In the registration loop and in the issuance loop alike: when the
    attempts before attempt [k + 1] fail with errors that are not classified
    as a rate limit and attempt [k + 1] fails with a rate-limit error [e],
    the phase makes exactly [k + 1] attempts, the last event is that attempt
    (no warning and no sleep follow it), and [UpdateCertificate] returns
    [nil] and the error wrapping [e].  With [k = 0] the loop stops after one
    attempt and no sleep. *)
Theorem rate_limit_stops_the_loop (E : Env) (request : certificate.ObtainRequest)
    (w : World) (k : nat) (e : error) :
  (k < retries)%nat -> isRateLimited e = true ->
  (genericFailures (Register E) (registerCalls w) k ->
   Register E (registerCalls w + k) = Err e ->
   exists w' tr,
     register E w = (Return None (Some (Errorf "Failed to register user" e)), w') /\
     trace w' = trace w ++ tr /\
     tr = rounds k EvRegister registerWarning ++ [EvRegister] /\
     count isAttempt tr = S k /\ count isSleep tr = k /\
     clock w' = clock w + Z.of_nat k * (10 * time.Second))
  /\
  (genericFailures (Obtain E request) (obtainCalls w) k ->
   Obtain E request (obtainCalls w + k) = Err e ->
   exists w' tr,
     obtain E request w =
       (Return None (Some (Errorf "Failed to obtain certificate" e)), w') /\
     trace w' = trace w ++ tr /\
     tr = rounds k (EvObtain request) obtainWarning ++ [EvObtain request] /\
     count isAttempt tr = S k /\ count isSleep tr = k /\
     clock w' = clock w + Z.of_nat k * (10 * time.Second)).
Proof.
  intros Hk Hrl. split; intros Hgen Hs.
  - destruct (retried_rate_limited (Registration_Register E) registerWarning
                "Failed to register user" (Register E) registerCalls EvRegister
                (Registration_Register_run E) (fun _ _ => eq_refl) (fun _ _ => eq_refl)
                w k e Hk Hgen Hs Hrl) as (w' & Hrun & Htr & Hck & _).
    exists w', (rounds k EvRegister registerWarning ++ [EvRegister]).
    rewrite !count_app, count_rounds_attempt, count_rounds_sleep by reflexivity.
    unfold count; simpl. repeat split; auto with lia.
  - destruct (retried_rate_limited (Certificate_Obtain E request) obtainWarning
                "Failed to obtain certificate" (Obtain E request) obtainCalls
                (EvObtain request) (Certificate_Obtain_run E request)
                (fun _ _ => eq_refl) (fun _ _ => eq_refl)
                w k e Hk Hgen Hs Hrl) as (w' & Hrun & Htr & Hck & _).
    exists w', (rounds k (EvObtain request) obtainWarning ++ [EvObtain request]).
    rewrite !count_app, count_rounds_attempt, count_rounds_sleep by reflexivity.
    unfold count; simpl. repeat split; auto with lia.
Qed.

Lemma rate_limit_stops_the_loop_witness :
  (exists w',
     register caRateLimits (world []) =
       (Return None (Some (Errorf "Failed to register user" rateLimited)), w') /\
     trace w' = rounds 2 EvRegister registerWarning ++ [EvRegister]) /\
  (exists w',
     obtain caRateLimits exampleRequest (world []) =
       (Return None (Some (Errorf "Failed to obtain certificate" rateLimited)), w') /\
     trace w' = rounds 2 (EvObtain exampleRequest) obtainWarning ++ [EvObtain exampleRequest]).
Proof.
  destruct (rate_limit_stops_the_loop caRateLimits exampleRequest (world []) 2 rateLimited)
    as [Hreg Hobt]; [unfold retries; lia | reflexivity |].
  split.
  - destruct Hreg as (w' & tr & Hrun & Htr & -> & _).
    + intros i Hi. exists timeout. destruct i as [|[|i]]; [auto | auto | lia].
    + reflexivity.
    + exists w'. split; [exact Hrun | exact Htr].
  - destruct Hobt as (w' & tr & Hrun & Htr & -> & _).
    + intros i Hi. exists timeout. destruct i as [|[|i]]; [auto | auto | lia].
    + reflexivity.
    + exists w'. split; [exact Hrun | exact Htr].
Defined.

(** The same from the caller's side: a renewal over HTTP-01 against that CA
    returns the wrapped rate-limit error after three calls to the CA and two
    sleeps, 20 seconds later. *)
Example rate_limited_renewal :
  let call := UpdateCertificate caRateLimits "HTTP-01" false "example.org"
                "admin@example.org" "" false (world []) in
  fst call = Return None (Some (Errorf "Failed to register user" rateLimited)) /\
  count isAttempt (trace (snd call)) = 3%nat /\
  count isSleep (trace (snd call)) = 2%nat /\
  clock (snd call) = 20 * time.Second.
Proof. vm_compute. repeat split; reflexivity. Qed.

(** C4. The registration loop and the issuance loop each make at most 5
    attempts and sleep 10 seconds after each failed attempt that is not
    classified as a rate limit, and after no other attempt.  When attempts 1
    to 4 fail with such errors and attempt 5 succeeds, the phase succeeds
    after 5 attempts and exactly 4 sleeps.  When all 5 attempts fail with
    such errors, [UpdateCertificate] returns [nil] and an error wrapping the
    error of the fifth attempt. *)
Theorem retry_budget (E : Env) (request : certificate.ObtainRequest) (w : World) :
  (* the registration loop *)
  (exists tr, trace (snd (register E w)) = trace w ++ tr /\
     withinBudget (Register E) (registerCalls w) EvRegister registerWarning tr) /\
  (forall a, genericFailures (Register E) (registerCalls w) 4 ->
     Register E (registerCalls w + 4) = Ok a ->
     exists w' tr,
       register E w = (Next (Some a), w') /\ trace w' = trace w ++ tr /\
       count isAttempt tr = 5%nat /\ count isSleep tr = 4%nat /\
       clock w' = clock w + 4 * (10 * time.Second)) /\
  (forall e, genericFailures (Register E) (registerCalls w) 5 ->
     Register E (registerCalls w + 4) = Err e ->
     exists w' tr,
       register E w = (Return None (Some (Errorf "Failed to register user" e)), w') /\
       trace w' = trace w ++ tr /\
       count isAttempt tr = 5%nat /\ count isSleep tr = 5%nat) /\
  (* the issuance loop *)
  (exists tr, trace (snd (obtain E request w)) = trace w ++ tr /\
     withinBudget (Obtain E request) (obtainCalls w) (EvObtain request) obtainWarning tr) /\
  (forall a, genericFailures (Obtain E request) (obtainCalls w) 4 ->
     Obtain E request (obtainCalls w + 4) = Ok a ->
     exists w' tr,
       obtain E request w = (Next (Some a), w') /\ trace w' = trace w ++ tr /\
       count isAttempt tr = 5%nat /\ count isSleep tr = 4%nat /\
       clock w' = clock w + 4 * (10 * time.Second)) /\
  (forall e, genericFailures (Obtain E request) (obtainCalls w) 5 ->
     Obtain E request (obtainCalls w + 4) = Err e ->
     exists w' tr,
       obtain E request w =
         (Return None (Some (Errorf "Failed to obtain certificate" e)), w') /\
       trace w' = trace w ++ tr /\
       count isAttempt tr = 5%nat /\ count isSleep tr = 5%nat).
Proof.
  pose proof (Registration_Register_run E) as HR.
  pose proof (Certificate_Obtain_run E request) as HO.
  assert (Hbudget : forall {A} attempt warning failure (script : nat -> result A) calls ev,
    (forall w, exists w', attempt w = (Next (script (calls w)), w') /\
       fs w' = fs w /\ clock w' = clock w /\
       trace w' = trace w ++ [ev] /\ calls w' = S (calls w)) ->
    (forall evs w, calls (logged evs w) = calls w) ->
    (forall d w, calls (snd (Sleep d w)) = calls w) ->
    exists tr, trace (snd (retried attempt warning failure w)) = trace w ++ tr /\
      withinBudget script (calls w) ev warning tr).
  { intros A attempt warning failure script calls ev H1 H2 H3.
    destruct (retried_run attempt warning failure script calls ev H1 H2 H3 w)
      as (k & w' & Hk & Hgen & _ & _ & Hend).
    destruct Hend as [(Hlt & Htr & Hend) | (-> & Htr & e & He & Hrun)].
    - exists (rounds k ev warning ++ [ev]). split.
      + destruct Hend as [(a & _ & ->) | (e & _ & _ & ->)]; exact Htr.
      + exists k, [ev]. split; [reflexivity|].
        split; [unfold retries in *; simpl; lia|].
        split; [exact Hgen|]. right. split; [reflexivity|].
        destruct Hend as [(a & Ha & _) | (e & He & Hrl & _)]; eauto.
    - exists (rounds retries ev warning). rewrite Hrun. split; [exact Htr|].
      exists retries, []. rewrite app_nil_r. split; [reflexivity|].
      split; [unfold retries; simpl; lia|]. split; [exact Hgen | left; reflexivity]. }
  split; [|split; [|split; [|split; [|split]]]].
  - apply (Hbudget _ _ _ _ _ registerCalls _ HR); reflexivity.
  - intros a Hgen Hs.
    destruct (retried_success _ registerWarning "Failed to register user" _
                registerCalls _ HR (fun _ _ => eq_refl) (fun _ _ => eq_refl)
                w 4 a ltac:(unfold retries; lia) Hgen Hs) as (w' & Hrun & Htr & Hck & _).
    exists w', (rounds 4 EvRegister registerWarning ++ [EvRegister]).
    repeat split; auto.
  - intros e Hgen Hs.
    destruct (retried_exhausted _ registerWarning "Failed to register user" _
                registerCalls _ HR (fun _ _ => eq_refl) (fun _ _ => eq_refl)
                w e Hgen Hs) as (w' & Hrun & Htr & _).
    exists w', (rounds retries EvRegister registerWarning). repeat split; auto.
  - apply (Hbudget _ _ _ _ _ obtainCalls _ HO); reflexivity.
  - intros a Hgen Hs.
    destruct (retried_success _ obtainWarning "Failed to obtain certificate" _
                obtainCalls _ HO (fun _ _ => eq_refl) (fun _ _ => eq_refl)
                w 4 a ltac:(unfold retries; lia) Hgen Hs) as (w' & Hrun & Htr & Hck & _).
    exists w', (rounds 4 (EvObtain request) obtainWarning ++ [EvObtain request]).
    repeat split; auto.
  - intros e Hgen Hs.
    destruct (retried_exhausted _ obtainWarning "Failed to obtain certificate" _
                obtainCalls _ HO (fun _ _ => eq_refl) (fun _ _ => eq_refl)
                w e Hgen Hs) as (w' & Hrun & Htr & _).
    exists w', (rounds retries (EvObtain request) obtainWarning). repeat split; auto.
Qed.

Lemma retry_budget_witness :
  (exists w' tr,
     register caRecovers (world []) = (Next (Some "https://ca.example/acct/1"), w') /\
     trace w' = tr /\ count isAttempt tr = 5%nat /\ count isSleep tr = 4%nat) /\
  (exists w' tr,
     obtain caDown exampleRequest (world []) =
       (Return None (Some (Errorf "Failed to obtain certificate" timeout)), w') /\
     trace w' = tr /\ count isAttempt tr = 5%nat /\ count isSleep tr = 5%nat).
Proof.
  split.
  - destruct (retry_budget caRecovers exampleRequest (world []))
      as (_ & Hok & _).
    destruct (Hok "https://ca.example/acct/1") as (w' & tr & Hrun & Htr & Ha & Hs & _).
    + intros i Hi. exists timeout.
      destruct i as [|[|[|[|i]]]]; [auto | auto | auto | auto | lia].
    + reflexivity.
    + exists w', tr. auto.
  - destruct (retry_budget caDown exampleRequest (world []))
      as (_ & _ & _ & _ & _ & Hbad).
    destruct (Hbad timeout) as (w' & tr & Hrun & Htr & Ha & Hs).
    + intros i Hi. exists timeout. auto.
    + reflexivity.
    + exists w', tr. auto.
Defined.

(** ** The cluster certificate buffer *)

(** Run the program as far as the hypotheses tell the answers of the
    environment. *)
Ltac run :=
  unfold bufferedCertificate, clearBuffer, bind, ret, return_, panic, effect,
    log, try, check, index0, PathExists, ReadFile, Remove, Now; simpl;
  repeat match goal with
         | H : ?x = _ |- context [?x] => rewrite H; simpl
         end.

(** Case analysis on the innermost answer the goal still depends on. *)
Ltac cases :=
  match goal with
  | |- context [match ?x with _ => _ end] =>
      lazymatch x with
      | context [match _ with _ => _ end] => fail
      | _ => destruct x eqn:?
      end
  | |- context [if ?x then _ else _] =>
      lazymatch x with
      | context [match _ with _ => _ end] => fail
      | _ => destruct x eqn:?
      end
  end.

Lemma bufferedCertificate_skipped (E : Env) (path : string) (clustered : bool)
    (domain : string) (force : bool) (w : World) :
  force = true \/ clustered = false \/ fs w !! path = None ->
  bufferedCertificate E path clustered domain force w = (Next tt, w).
Proof.
  intros [-> | [-> | H]].
  - reflexivity.
  - destruct force; reflexivity.
  - run. destruct (negb force && clustered); simpl; [by rewrite H | reflexivity].
Qed.

(** C2. If clustered is true, force is false, the buffer file and the key
    file are readable, they form a key pair whose first certificate parses,
    and [certificateNeedsUpdate] answers false for the requested domain,
    then [UpdateCertificate] returns the buffered certificate and key; it
    has read the two files and done nothing else: no file is removed, the
    active certificate is not loaded, no subprocess is run and the CA is not
    called. *)
Theorem buffered_certificate_returned (E : Env) (w : World)
    (challengeType domain email caURL : string) (clusterCert key : bytes)
    (keyPair : tls.KeyPair) (leaf : bytes) (rest : list bytes)
    (cert : x509.Certificate) :
  fs w !! VarPath E ClusterCertFilename = Some (File clusterCert) ->
  fs w !! VarPath E "cluster.key" = Some (File key) ->
  X509KeyPair E clusterCert key = Ok keyPair ->
  tls.Certificate keyPair = leaf :: rest ->
  ParseCertificate E leaf = Ok cert ->
  fst (certificateNeedsUpdate domain cert w) = Next false ->
  UpdateCertificate E challengeType true domain email caURL false w =
    (Return (Some {| certificate.Certificate := clusterCert;
                     certificate.PrivateKey := key |}) None,
     logged [EvReadFile (VarPath E ClusterCertFilename);
             EvReadFile (VarPath E "cluster.key")] w).
Proof.
  intros Hcert Hkey Hpair Hleaf Hparse Hfresh.
  rewrite certificateNeedsUpdate_run in Hfresh. cbn [fst] in Hfresh.
  injection Hfresh as Hfresh.
  unfold UpdateCertificate. run.
  unfold certificateNeedsUpdate. run.
  unfold emit. rewrite logged_logged. reflexivity.
Qed.

Lemma buffered_certificate_returned_witness :
  UpdateCertificate (caUp "dummy" (10 * day)) "HTTP-01" true "example.org"
    "admin@example.org" "" false freshBuffer =
    (Return (Some {| certificate.Certificate := pem "fresh";
                     certificate.PrivateKey := pem "key" |}) None,
     logged [EvReadFile bufferPath; EvReadFile keyPath] freshBuffer).
Proof.
  apply (buffered_certificate_returned (caUp "dummy" (10 * day)) freshBuffer
           "HTTP-01" "example.org" "admin@example.org" "" (pem "fresh") (pem "key")
           {| tls.Certificate := [pem "fresh"]; tls.PrivateKey := pem "key" |}
           (pem "fresh") []
           {| x509.DNSNames := ["example.org"]; x509.NotAfter := 90 * day |});
    vm_compute; reflexivity.
Defined.

(** C5 fails where the buffer files cannot be read or are no key pair: the
    call returns the storage failure, although the active certificate, 10
    days from its expiry, is due for renewal; nothing is issued. *)
Lemma unusable_buffer_fails_the_call :
  UpdateCertificate (caUp "dummy" (10 * day)) "HTTP-01" true "example.org"
    "admin@example.org" "" false unreadableBuffer =
    (Return None
       (Some (Errorf "Failed reading cluster certificate file"
                (ErrorString "permission denied"))),
     logged [EvReadFile bufferPath] unreadableBuffer)
  /\
  UpdateCertificate (caUp "dummy" (10 * day)) "HTTP-01" true "example.org"
    "admin@example.org" "" false brokenPair =
    (Return None
       (Some (Errorf "Failed to get keypair"
                (ErrorString "tls: failed to find any PEM data in key input"))),
     logged [EvReadFile bufferPath; EvReadFile keyPath] brokenPair).
Proof. split; vm_compute; reflexivity. Qed.

(** C5, as the code has it.  When clustered is true, force is false and the
    buffer file exists, a failure to read the buffer file or the key file, to
    pair them or to parse the certificate is returned by [UpdateCertificate]
    as [nil] and an error wrapping the failure; the call has only read the
    files: the buffer is not removed and no issuance follows. *)
Theorem buffer_failure_is_returned (E : Env) (w : World)
    (challengeType domain email caURL : string) :
  let cert := VarPath E ClusterCertFilename in
  let key := VarPath E "cluster.key" in
  let call := UpdateCertificate E challengeType true domain email caURL false w in
  is_Some (fs w !! cert) ->
  (forall e, readResult (fs w !! cert) = Err e ->
     call = (Return None (Some (Errorf "Failed reading cluster certificate file" e)),
             logged [EvReadFile cert] w)) /\
  (forall c e, readResult (fs w !! cert) = Ok c ->
     readResult (fs w !! key) = Err e ->
     call = (Return None (Some (Errorf "Failed reading cluster key file" e)),
             logged [EvReadFile cert; EvReadFile key] w)) /\
  (forall c k e, readResult (fs w !! cert) = Ok c ->
     readResult (fs w !! key) = Ok k ->
     X509KeyPair E c k = Err e ->
     call = (Return None (Some (Errorf "Failed to get keypair" e)),
             logged [EvReadFile cert; EvReadFile key] w)) /\
  (forall c k keyPair leaf rest e, readResult (fs w !! cert) = Ok c ->
     readResult (fs w !! key) = Ok k ->
     X509KeyPair E c k = Ok keyPair ->
     tls.Certificate keyPair = leaf :: rest ->
     ParseCertificate E leaf = Err e ->
     call = (Return None (Some (Errorf "Failed to parse certificate" e)),
             logged [EvReadFile cert; EvReadFile key] w)).
Proof.
  intros cert key call [n Hn]. subst call cert key.
  repeat split; intros; unfold UpdateCertificate; run;
    unfold emit; rewrite ?logged_logged; reflexivity.
Qed.

Lemma buffer_failure_is_returned_witness :
  UpdateCertificate (caUp "dummy" (10 * day)) "DNS-01" true "example.org"
    "admin@example.org" "" false brokenPair =
    (Return None
       (Some (Errorf "Failed to get keypair"
                (ErrorString "tls: failed to find any PEM data in key input"))),
     logged [EvReadFile bufferPath; EvReadFile keyPath] brokenPair).
Proof.
  destruct (buffer_failure_is_returned (caUp "dummy" (10 * day)) brokenPair
              "DNS-01" "example.org" "admin@example.org" "")
    as (_ & _ & Hpair & _).
  - exists (File (pem "fresh")). vm_compute; reflexivity.
  - apply (Hpair (pem "fresh") (pem "garbage")); vm_compute; reflexivity.
Defined.

Lemma clearBuffer_present (path : string) (w : World) :
  is_Some (fs w !! path) -> clearBuffer path w = (Next tt, removed path w).
Proof. intros [n Hn]. run. reflexivity. Qed.

Lemma clearBuffer_absent (path : string) (w : World) :
  fs w !! path = None -> clearBuffer path w = (Next tt, w).
Proof. intros Hn. run. reflexivity. Qed.

(** What the buffer block leaves behind when it falls through: it has read
    files and nothing else. *)
Lemma bufferedCertificate_through (E : Env) (path : string) (clustered : bool)
    (domain : string) (force : bool) (w w1 : World) :
  bufferedCertificate E path clustered domain force w = (Next tt, w1) ->
  fs w1 = fs w /\ clock w1 = clock w /\
  exists reads, trace w1 = trace w ++ reads /\
    Forall (fun e => exists p, e = EvReadFile p) reads /\
    (clustered = false \/ force = true -> reads = []).
Proof.
  intros H.
  destruct (negb force && clustered) eqn:Hgate.
  - destruct force, clustered; try discriminate.
    destruct (fs w !! path) as [n|] eqn:Hn.
    + revert H. run.
      repeat (cases; simpl; try discriminate).
      intros [= <-]. simpl.
      repeat split. exists [EvReadFile path; EvReadFile (VarPath E "cluster.key")].
      split; [by rewrite <- app_assoc|].
      split; [repeat constructor; eauto | intros [|]; discriminate].
    + rewrite bufferedCertificate_skipped in H by auto. injection H as <-.
      repeat split. exists []. rewrite app_nil_r. auto.
  - rewrite bufferedCertificate_skipped in H
      by (destruct force, clustered; try discriminate; auto).
    injection H as <-. repeat split. exists []. rewrite app_nil_r. auto.
Qed.

(** C7. If clustered is true, force is false, and the buffer is readable, a
    key pair and parses, but [certificateNeedsUpdate] answers true for the
    requested domain, then the buffer file is removed before the active
    certificate is loaded and before anything that follows: the rest of the
    call is [renew] run on the state directory without the buffer file, and
    when the call returns the file does not exist, so that reading it
    answers "not found". *)
Theorem stale_buffer_is_deleted (E : Env) (w : World)
    (challengeType domain email caURL : string) (clusterCert key : bytes)
    (keyPair : tls.KeyPair) (leaf : bytes) (rest : list bytes)
    (cert : x509.Certificate) :
  let buffer := VarPath E ClusterCertFilename in
  let call := UpdateCertificate E challengeType true domain email caURL false w in
  fs w !! buffer = Some (File clusterCert) ->
  fs w !! VarPath E "cluster.key" = Some (File key) ->
  X509KeyPair E clusterCert key = Ok keyPair ->
  tls.Certificate keyPair = leaf :: rest ->
  ParseCertificate E leaf = Ok cert ->
  fst (certificateNeedsUpdate domain cert w) = Next true ->
  call = renew E challengeType domain email caURL false
           (removed buffer
              (logged [EvReadFile buffer; EvReadFile (VarPath E "cluster.key")] w)) /\
  (exists tr, trace (snd call) =
     trace w ++ [EvReadFile buffer; EvReadFile (VarPath E "cluster.key");
                 EvRemove buffer; EvLoadCert (VarDir E)] ++ tr) /\
  fs (snd call) !! buffer = None /\
  fst (PathExists buffer (snd call)) = Next false /\
  fst (ReadFile buffer (snd call)) = Next (Err ErrNotExist).
Proof.
  intros buffer call Hcert Hkey Hpair Hleaf Hparse Hstale.
  rewrite certificateNeedsUpdate_run in Hstale. cbn [fst] in Hstale.
  injection Hstale as Hstale.
  assert (Hcall : call = renew E challengeType domain email caURL false
           (removed buffer
              (logged [EvReadFile buffer; EvReadFile (VarPath E "cluster.key")] w))).
  { subst call buffer. unfold UpdateCertificate. run.
    unfold certificateNeedsUpdate. run.
    unfold emit. rewrite logged_logged. reflexivity. }
  split; [exact Hcall|]. rewrite Hcall.
  destruct (renew_frame E challengeType domain email caURL false
              (removed buffer
                 (logged [EvReadFile buffer; EvReadFile (VarPath E "cluster.key")] w)))
    as [Hfs [tr Htr]].
  assert (Hgone : fs (snd (renew E challengeType domain email caURL false
             (removed buffer
                (logged [EvReadFile buffer; EvReadFile (VarPath E "cluster.key")] w))))
             !! buffer = None).
  { rewrite Hfs. simpl. apply lookup_delete_eq. }
  split; [|split; [exact Hgone | split]].
  - exists tr. rewrite Htr. simpl. rewrite <- !app_assoc. reflexivity.
  - unfold PathExists. simpl. by rewrite Hgone.
  - unfold ReadFile. simpl. by rewrite Hgone.
Qed.

Lemma stale_buffer_is_deleted_witness :
  let call := UpdateCertificate (caUp "dummy" (10 * day)) "HTTP-01" true
                "example.org" "admin@example.org" "" false staleBuffer in
  (exists tr, trace (snd call) =
     [EvReadFile bufferPath; EvReadFile keyPath; EvRemove bufferPath;
      EvLoadCert "/var/lib/incus"] ++ tr) /\
  fs (snd call) !! bufferPath = None.
Proof.
  destruct (stale_buffer_is_deleted (caUp "dummy" (10 * day)) staleBuffer
              "HTTP-01" "example.org" "admin@example.org" "" (pem "stale") (pem "key")
              {| tls.Certificate := [pem "stale"]; tls.PrivateKey := pem "key" |}
              (pem "stale") []
              {| x509.DNSNames := ["example.org"]; x509.NotAfter := 10 * day |})
    as (_ & Htr & Hgone & _); try (vm_compute; reflexivity).
  split; [exact Htr | exact Hgone].
Defined.

(** C10. For every call to [UpdateCertificate] that does not return from
    the buffered-certificate block (lines 54-83), if the buffer file exists
    it is removed before the active certificate is loaded, and it is absent
    when the call returns.  This includes the calls with clustered false or
    force true: they never return from that block and never read the buffer;
    their first effect is the removal. *)
Theorem buffer_is_cleared_before_load (E : Env) (w : World)
    (challengeType : string) (clustered : bool) (domain email caURL : string)
    (force : bool) :
  let buffer := VarPath E ClusterCertFilename in
  let call := UpdateCertificate E challengeType clustered domain email caURL force w in
  is_Some (fs w !! buffer) ->
  (clustered = false \/ force = true ->
     bufferedCertificate E buffer clustered domain force w = (Next tt, w)) /\
  (forall w1, bufferedCertificate E buffer clustered domain force w = (Next tt, w1) ->
     exists reads tr,
       Forall (fun e => exists p, e = EvReadFile p) reads /\
       (clustered = false \/ force = true -> reads = []) /\
       trace (snd call) =
         trace w ++ reads ++ [EvRemove buffer; EvLoadCert (VarDir E)] ++ tr /\
       fs (snd call) !! buffer = None).
Proof.
  intros buffer call Hpresent. split.
  - intros [-> | ->]; apply bufferedCertificate_skipped; auto.
  - intros w1 Hthrough.
    destruct (bufferedCertificate_through _ _ _ _ _ _ _ Hthrough)
      as (Hfs1 & _ & reads & Hreads & Hall & Hnone).
    assert (Hcall : call = renew E challengeType domain email caURL force (removed buffer w1)).
    { subst call. unfold UpdateCertificate. fold buffer.
      rewrite (bind_Next _ _ _ _ _ Hthrough).
      rewrite (bind_Next _ _ _ _ _ (clearBuffer_present buffer w1
                 ltac:(rewrite Hfs1; exact Hpresent))).
      reflexivity. }
    destruct (renew_frame E challengeType domain email caURL force (removed buffer w1))
      as [Hfs [tr Htr]].
    exists reads, tr. split; [exact Hall|]. split; [exact Hnone|].
    rewrite Hcall. split.
    + rewrite Htr. simpl. rewrite Hreads, <- !app_assoc. reflexivity.
    + rewrite Hfs. simpl. apply lookup_delete_eq.
Qed.

Lemma buffer_is_cleared_before_load_witness :
  let call := UpdateCertificate (caUp "dummy" (90 * day)) "HTTP-01" false
                "example.org" "admin@example.org" "" false freshBuffer in
  (exists tr, trace (snd call) =
     [EvRemove bufferPath; EvLoadCert "/var/lib/incus"] ++ tr) /\
  fs (snd call) !! bufferPath = None.
Proof.
  destruct (buffer_is_cleared_before_load (caUp "dummy" (90 * day)) freshBuffer
              "HTTP-01" false "example.org" "admin@example.org" "" false)
    as [Hskip Hclear].
  - exists (File (pem "fresh")). vm_compute; reflexivity.
  - destruct (Hclear freshBuffer (Hskip (or_introl eq_refl)))
      as (reads & tr & _ & Hnone & Htr & Hgone).
    rewrite (Hnone (or_introl eq_refl)) in Htr.
    split; [exists tr; exact Htr | exact Hgone].
Defined.

(** ** Forced renewal and the challenge dispatch *)

Lemma register_outcome (E : Env) (w : World) :
  (exists a, fst (register E w) = Next (Some a)) \/
  (exists e, fst (register E w) = Return None (Some e)).
Proof.
  destruct (retried_run (Registration_Register E) registerWarning
              "Failed to register user" (Register E) registerCalls EvRegister
              (Registration_Register_run E) (fun _ _ => eq_refl) (fun _ _ => eq_refl) w)
    as (k & w' & _ & _ & _ & _ & Hend).
  destruct Hend as [(_ & _ & [(a & _ & Hr) | (e & _ & _ & Hr)]) | (_ & _ & e & _ & Hr)];
    unfold register; rewrite Hr; eauto.
Qed.

Lemma obtain_outcome (E : Env) (request : certificate.ObtainRequest) (w : World) :
  (exists a, fst (obtain E request w) = Next (Some a)) \/
  (exists e, fst (obtain E request w) = Return None (Some e)).
Proof.
  destruct (retried_run (Certificate_Obtain E request) obtainWarning
              "Failed to obtain certificate" (Obtain E request) obtainCalls
              (EvObtain request) (Certificate_Obtain_run E request)
              (fun _ _ => eq_refl) (fun _ _ => eq_refl) w)
    as (k & w' & _ & _ & _ & _ & Hend).
  destruct Hend as [(_ & _ & [(a & _ & Hr) | (e & _ & _ & Hr)]) | (_ & _ & e & _ & Hr)];
    unfold obtain; rewrite Hr; eauto.
Qed.

Lemma bind_first {A B} (m : M A) (k : A -> M B) (w : World) (ev : event) :
  (exists tr, trace (snd (m w)) = trace w ++ ev :: tr) ->
  (forall a, framed (k a)) ->
  exists tr, trace (snd (bind m k w)) = trace w ++ ev :: tr.
Proof.
  intros [tr Htr] Hk. unfold bind.
  destruct (m w) as [[a| |] w1]; simpl in *; eauto.
  destruct (Hk a w1) as [_ [tr' Htr']].
  exists (tr ++ tr'). rewrite Htr', Htr, <- app_assoc. reflexivity.
Qed.

(** The first call to the CA is the first effect of the registration phase. *)
Lemma register_first (E : Env) (w : World) :
  exists tr, trace (snd (register E w)) = trace w ++ EvRegister :: tr.
Proof.
  destruct (retried_run (Registration_Register E) registerWarning
              "Failed to register user" (Register E) registerCalls EvRegister
              (Registration_Register_run E) (fun _ _ => eq_refl) (fun _ _ => eq_refl) w)
    as (k & w' & _ & _ & _ & _ & Hend).
  assert (Hshape : exists tr, trace w' = trace w ++ EvRegister :: tr).
  { destruct Hend as [(_ & Htr & _) | (-> & Htr & _)].
    - destruct k; rewrite Htr; simpl; eauto.
    - rewrite Htr. simpl. eauto. }
  destruct Hend as [(_ & _ & [(a & _ & Hr) | (e & _ & _ & Hr)]) | (_ & _ & e & _ & Hr)];
    unfold register; rewrite Hr; exact Hshape.
Qed.

(** The challenge dispatch returns a certificate or an error, never
    [nil, nil]. *)
Lemma issue_not_nil (E : Env) (challengeType : string) (certInfo : localtls.CertInfo)
    (domain email caURL : string) (w : World) :
  fst (issue E challengeType certInfo domain email caURL w) <> Return None None.
Proof.
  unfold issue. destruct (String.eqb challengeType "DNS-01").
  - unfold dns01, defer. destruct (ACMEDNS E) as [[provider environment] resolvers].
    run. repeat (cases; simpl; try discriminate).
  - unfold http01. run. repeat (cases; simpl; try discriminate).
    all: repeat match goal with
         | H : register ?E0 ?w0 = _ |- _ =>
             let P := fresh in
             pose proof (register_outcome E0 w0) as P; rewrite H in P; simpl in P; clear H
         | H : obtain ?E0 ?req ?w0 = _ |- _ =>
             let P := fresh in
             pose proof (obtain_outcome E0 req w0) as P; rewrite H in P; simpl in P; clear H
         end.
    all: firstorder congruence.
Qed.

(** With the provider set and the temporary directory made, the DNS-01
    branch runs [lego]. *)
Lemma dns01_runs_lego (E : Env) (certInfo : localtls.CertInfo)
    (domain email caURL provider tmpDir : string)
    (environment resolvers : list string) (w : World) :
  ACMEDNS E = (provider, environment, resolvers) -> provider <> "" ->
  MkdirTemp E "" "lego" = Ok tmpDir ->
  exists tr,
    trace (snd (issue E "DNS-01" certInfo domain email caURL w)) =
      trace w ++
      [EvMkdirTemp "" "lego";
       EvRunCommand (Environ E ++ environment) "lego"
         (legoArgs provider domain email tmpDir caURL resolvers)] ++ tr.
Proof.
  intros Hcfg Hprov Htmp. unfold issue. simpl. unfold dns01. rewrite Hcfg.
  destruct (String.eqb_spec provider ""); [contradiction|].
  unfold defer, removeTmpDir. run.
  repeat (cases; simpl); rewrite <- ?app_assoc; simpl; eauto.
Qed.

(** With the account key, the client and the solver set up, the HTTP-01
    branch calls the CA. *)
Lemma http01_registers (E : Env) (challengeType : string) (certInfo : localtls.CertInfo)
    (domain email caURL : string) (accountKey : bytes) (w : World) :
  String.eqb challengeType "DNS-01" = false ->
  GenerateKey E = Ok accountKey ->
  NewClient E (clientConfig email accountKey caURL) = None ->
  RegisterWithSolver E = None ->
  exists tr,
    trace (snd (issue E challengeType certInfo domain email caURL w)) =
      trace w ++
      [EvGenerateKey; EvNewClient (clientConfig email accountKey caURL);
       EvRegisterWithSolver; EvRegister] ++ tr.
Proof.
  intros Hct Hkey Hclient Hsolver. unfold issue. rewrite Hct.
  unfold http01. rewrite Hkey. cbn [try].
  do 2 (erewrite bind_Next by reflexivity). cbv beta zeta.
  rewrite Hclient, Hsolver. cbn [check].
  repeat (erewrite bind_Next by reflexivity).
  match goal with |- context [bind (register E) ?k ?w0] =>
    destruct (bind_first (register E) k w0 EvRegister (register_first E w0))
      as [tr Htr]
  end.
  - intros reg. unfold obtain. framing.
  - exists tr. rewrite Htr. simpl. rewrite <- !app_assoc. reflexivity.
Qed.

(** C6 fails where the call stops before the issuance: force is true and
    the active certificate cannot be loaded, or force is true and DNS-01 has
    no provider.  The call returns an error; no subprocess is run and the CA
    is not called. *)
Lemma forced_renewal_stops_at_load_error :
  UpdateCertificate noActive "HTTP-01" false "example.org" "admin@example.org" ""
    true (world []) =
    (Return None
       (Some (Errorf "Failed to load certificate and key file"
                (ErrorString "open /var/lib/incus/server.crt: no such file or directory"))),
     logged [EvLoadCert "/var/lib/incus"] (world []))
  /\
  UpdateCertificate (caUp "" (90 * day)) "DNS-01" false "example.org"
    "admin@example.org" "" true (world []) =
    (Return None (Some noProviderError),
     logged [EvLoadCert "/var/lib/incus"] (world [])).
Proof. split; vm_compute; reflexivity. Qed.

(** C6, as the code has it.  If force is true, the buffered-certificate
    block is passed over without reading the buffer, and the call never
    returns [nil, nil].  Whenever the active certificate loads and parses,
    the call goes on to the challenge dispatch whatever the freshness of that
    certificate: it is [issue] run after the buffer is cleared and the
    certificate loaded.  There the DNS-01 branch runs [lego] once the
    provider is set and the temporary directory made, and any other challenge
    type calls the CA's registration once the account key, the client and
    the solver are set up. *)
Theorem forced_renewal (E : Env) (w : World) (challengeType : string)
    (clustered : bool) (domain email caURL : string) :
  let buffer := VarPath E ClusterCertFilename in
  let call := UpdateCertificate E challengeType clustered domain email caURL true w in
  bufferedCertificate E buffer clustered domain true w = (Next tt, w) /\
  fst call <> Return None None /\
  (forall certInfo leaf rest cert,
     LoadCert E (VarDir E) = Ok certInfo ->
     tls.Certificate (localtls.KeyPair certInfo) = leaf :: rest ->
     ParseCertificate E leaf = Ok cert ->
     let loaded := emit (EvLoadCert (VarDir E)) (snd (clearBuffer buffer w)) in
     call = issue E challengeType certInfo domain email caURL loaded /\
     (forall provider environment resolvers tmpDir,
        challengeType = "DNS-01" ->
        ACMEDNS E = (provider, environment, resolvers) -> provider <> "" ->
        MkdirTemp E "" "lego" = Ok tmpDir ->
        exists tr, trace (snd call) =
          trace loaded ++
          [EvMkdirTemp "" "lego";
           EvRunCommand (Environ E ++ environment) "lego"
             (legoArgs provider domain email tmpDir caURL resolvers)] ++ tr) /\
     (forall accountKey,
        String.eqb challengeType "DNS-01" = false ->
        GenerateKey E = Ok accountKey ->
        NewClient E (clientConfig email accountKey caURL) = None ->
        RegisterWithSolver E = None ->
        exists tr, trace (snd call) =
          trace loaded ++
          [EvGenerateKey; EvNewClient (clientConfig email accountKey caURL);
           EvRegisterWithSolver; EvRegister] ++ tr)).
Proof.
  intros buffer call.
  assert (Hskip : bufferedCertificate E buffer clustered domain true w = (Next tt, w))
    by (apply bufferedCertificate_skipped; auto).
  assert (Hclear : clearBuffer buffer w = (Next tt, snd (clearBuffer buffer w))).
  { destruct (fs w !! buffer) as [n|] eqn:Hn.
    - by rewrite clearBuffer_present by eauto.
    - by rewrite clearBuffer_absent. }
  assert (Hcall : call = renew E challengeType domain email caURL true
                           (snd (clearBuffer buffer w))).
  { subst call. unfold UpdateCertificate. fold buffer.
    rewrite (bind_Next _ _ _ _ _ Hskip), (bind_Next _ _ _ _ _ Hclear). reflexivity. }
  split; [exact Hskip|]. split.
  - rewrite Hcall. unfold renew. run.
    repeat (cases; simpl; try discriminate); apply issue_not_nil.
  - intros certInfo leaf rest cert Hload Hleaf Hparse loaded.
    assert (Hissue : call = issue E challengeType certInfo domain email caURL loaded).
    { rewrite Hcall. unfold renew. run. reflexivity. }
    split; [exact Hissue|]. rewrite Hissue. split.
    + intros provider environment resolvers tmpDir -> Hcfg Hprov Htmp.
      eapply dns01_runs_lego; eauto.
    + intros accountKey Hct Hkey Hclient Hsolver.
      eapply http01_registers; eauto.
Qed.

Lemma forced_renewal_witness :
  let call := UpdateCertificate (caUp "dummy" (90 * day)) "HTTP-01" true
                "example.org" "admin@example.org" "" true freshBuffer in
  fst call <> Return None None /\
  exists tr, trace (snd call) =
    [EvRemove bufferPath; EvLoadCert "/var/lib/incus"; EvGenerateKey;
     EvNewClient (clientConfig "admin@example.org" (pem "accountkey") "");
     EvRegisterWithSolver; EvRegister] ++ tr.
Proof.
  destruct (forced_renewal (caUp "dummy" (90 * day)) freshBuffer "HTTP-01" true
              "example.org" "admin@example.org" "") as (_ & Hnil & Hgo).
  split; [exact Hnil|].
  destruct (Hgo activeCertInfo (pem "active") []
              {| x509.DNSNames := ["example.org"]; x509.NotAfter := 90 * day |})
    as (_ & _ & Hhttp); try (vm_compute; reflexivity).
  destruct (Hhttp (pem "accountkey")) as [tr Htr]; try (vm_compute; reflexivity).
  exists tr. exact Htr.
Defined.

(** C8 fails where the call returns before the dispatch: DNS-01 without a
    provider, while the active certificate is valid for another 90 days,
    returns [nil, nil], not a configuration error. *)
Lemma missing_provider_unnoticed_while_fresh :
  ACMEDNS (caUp "" (90 * day)) = ("", ["DUMMY_TOKEN=t"], []) /\
  UpdateCertificate (caUp "" (90 * day)) "DNS-01" false "example.org"
    "admin@example.org" "" false (world []) =
    (Return None None,
     logged [EvLoadCert "/var/lib/incus";
             EvLog Debug
               "Skipping certificate renewal as it is still valid for more than 30 days"]
       (world [])).
Proof. split; vm_compute; reflexivity. Qed.

(** C8, as the code has it.  If the DNS provider is empty, the challenge
    dispatch for "DNS-01" returns the configuration error at once, with no
    effect at all.  So every call to [UpdateCertificate] with challenge type
    "DNS-01" that reaches the dispatch (it does not return from the buffer
    block, the active certificate loads and parses, and force is true or the
    certificate needs an update) returns that error, and its effects end
    with the load of the active certificate: no temporary directory, no
    subprocess, no call to the CA, no sleep. *)
Theorem dns01_needs_provider (E : Env) (environment resolvers : list string) :
  ACMEDNS E = ("", environment, resolvers) ->
  (forall certInfo domain email caURL w,
     issue E "DNS-01" certInfo domain email caURL w =
       (Return None (Some noProviderError), w)) /\
  (forall w w1 clustered domain email caURL force certInfo leaf rest cert,
     let buffer := VarPath E ClusterCertFilename in
     bufferedCertificate E buffer clustered domain force w = (Next tt, w1) ->
     LoadCert E (VarDir E) = Ok certInfo ->
     tls.Certificate (localtls.KeyPair certInfo) = leaf :: rest ->
     ParseCertificate E leaf = Ok cert ->
     force = true \/ fst (certificateNeedsUpdate domain cert w1) = Next true ->
     UpdateCertificate E "DNS-01" clustered domain email caURL force w =
       (Return None (Some noProviderError),
        emit (EvLoadCert (VarDir E)) (snd (clearBuffer buffer w1)))).
Proof.
  intros Hcfg.
  assert (Hissue : forall certInfo domain email caURL w,
     issue E "DNS-01" certInfo domain email caURL w =
       (Return None (Some noProviderError), w)).
  { intros. unfold issue. simpl. unfold dns01. rewrite Hcfg. reflexivity. }
  split; [exact Hissue|].
  intros w w1 clustered domain email caURL force certInfo leaf rest cert buffer
    Hthrough Hload Hleaf Hparse Hdue.
  assert (Hclear : clearBuffer buffer w1 = (Next tt, snd (clearBuffer buffer w1))).
  { destruct (fs w1 !! buffer) as [n|] eqn:Hn.
    - by rewrite clearBuffer_present by eauto.
    - by rewrite clearBuffer_absent. }
  assert (Hclock : clock (snd (clearBuffer buffer w1)) = clock w1).
  { destruct (fs w1 !! buffer) as [n|] eqn:Hn.
    - by rewrite clearBuffer_present by eauto.
    - by rewrite clearBuffer_absent. }
  unfold UpdateCertificate. fold buffer.
  rewrite (bind_Next _ _ _ _ _ Hthrough), (bind_Next _ _ _ _ _ Hclear).
  unfold renew.
  erewrite bind_Next by reflexivity. rewrite Hload. cbn [try].
  erewrite bind_Next by reflexivity. rewrite Hleaf. cbn [index0].
  erewrite bind_Next by reflexivity. rewrite Hparse. cbn [try].
  erewrite bind_Next by reflexivity.
  destruct force.
  - cbn [negb]. erewrite bind_Next by reflexivity. apply Hissue.
  - destruct Hdue as [Hforce | Hstale]; [discriminate|].
    rewrite certificateNeedsUpdate_run in Hstale. cbn [fst] in Hstale.
    injection Hstale as Hstale.
    cbn [negb]. erewrite bind_Next.
    2:{ erewrite bind_Next by apply certificateNeedsUpdate_run.
        unfold emit, logged at 1. cbn [clock]. rewrite Hclock, Hstale. reflexivity. }
    apply Hissue.
Qed.

Lemma dns01_needs_provider_witness :
  UpdateCertificate (caUp "" (10 * day)) "DNS-01" true "example.org"
    "admin@example.org" "" false staleBuffer =
    (Return None (Some noProviderError),
     logged [EvReadFile bufferPath; EvReadFile keyPath; EvRemove bufferPath;
             EvLoadCert "/var/lib/incus"]
       (world [(keyPath, File (pem "key"))])).
Proof.
  destruct (dns01_needs_provider (caUp "" (10 * day)) ["DUMMY_TOKEN=t"] [] eq_refl)
    as [_ Hcall].
  rewrite (Hcall staleBuffer
             (logged [EvReadFile bufferPath; EvReadFile keyPath] staleBuffer)
             true "example.org" "admin@example.org" "" false activeCertInfo
             (pem "active") []
             {| x509.DNSNames := ["example.org"]; x509.NotAfter := 10 * day |});
    try (vm_compute; reflexivity).
  right. vm_compute; reflexivity.
Defined.

(** ** The CA directory URL *)

(** The HTTP-01 branch falls back to the Let's Encrypt directory. *)
Lemma clientConfig_default (email : string) (privateKey : bytes) :
  lego.CADirURL (clientConfig email privateKey "") = letsEncryptURL.
Proof. reflexivity. Qed.

Lemma clientConfig_given (email : string) (privateKey : bytes) (caURL : string) :
  caURL <> "" -> lego.CADirURL (clientConfig email privateKey caURL) = caURL.
Proof. intros H. unfold clientConfig. simpl. by destruct (String.eqb_spec caURL ""). Qed.

(** C9 at DNS-01: a forced renewal with an empty CA directory URL runs
    [lego] with the empty string after [--server]; the Let's Encrypt
    directory URL is not among the arguments. *)
Theorem dns01_passes_empty_server :
  let call := UpdateCertificate (caUp "dummy" (90 * day)) "DNS-01" false
                "example.org" "admin@example.org" "" true (world []) in
  let args := ["--accept-tos"; "--dns"; "dummy"; "--domains"; "example.org";
               "--email"; "admin@example.org"; "--path"; "/tmp/lego1";
               "--server"; ""; "run"] in
  call =
    (Return (Some {| certificate.Certificate := pem "issued";
                     certificate.PrivateKey := pem "issuedkey" |}) None,
     logged [EvLoadCert "/var/lib/incus"; EvMkdirTemp "" "lego";
             EvRunCommand ["PATH=/usr/bin"; "DUMMY_TOKEN=t"] "lego" args;
             EvKeyPairAndCA "/tmp/lego1/certificates" "example.org";
             EvRemoveAll "/tmp/lego1"] (world [])) /\
  ~ In letsEncryptURL args.
Proof.
  split; [vm_compute; reflexivity|].
  intros H. repeat (destruct H as [H|H]; [discriminate H|]). exact H.
Qed.

(** * Further properties of the renewal *)

(** ** What a call may do *)

Section Effects.
Context (P : event -> Prop).

Lemma effects_ret {A} (a : A) : effects P (ret a).
Proof. intros w. exists []. rewrite app_nil_r. auto. Qed.

Lemma effects_return {A} r e : effects P (@return_ A r e).
Proof. intros w. exists []. rewrite app_nil_r. auto. Qed.

Lemma effects_panic {A} : effects P (@panic A).
Proof. intros w. exists []. rewrite app_nil_r. auto. Qed.

Lemma effects_bind {A B} (m : M A) (k : A -> M B) :
  effects P m -> (forall a, effects P (k a)) -> effects P (bind m k).
Proof.
  intros Hm Hk w. unfold bind. destruct (Hm w) as (tr & Htr & HP).
  destruct (m w) as [[a| |] w']; simpl in *; eauto.
  destruct (Hk a w') as (tr' & Htr' & HP').
  exists (tr ++ tr'). rewrite Htr', Htr, app_assoc. split; [reflexivity|].
  apply Forall_app; auto.
Qed.

(** The same when the continuation is only known to be fine for the values
    [m] can give. *)
Lemma effects_bind_given {A B} (m : M A) (k : A -> M B) (Q : A -> Prop) :
  effects P m -> (forall w a w', m w = (Next a, w') -> Q a) ->
  (forall a, Q a -> effects P (k a)) -> effects P (bind m k).
Proof.
  intros Hm HQ Hk w. unfold bind. destruct (Hm w) as (tr & Htr & HP).
  destruct (m w) as [[a| |] w'] eqn:Hrun; simpl in *; eauto.
  destruct (Hk a (HQ _ _ _ Hrun) w') as (tr' & Htr' & HP').
  exists (tr ++ tr'). rewrite Htr', Htr, app_assoc. split; [reflexivity|].
  apply Forall_app; auto.
Qed.

Lemma effects_effect (e : event) : P e -> effects P (effect e).
Proof. intros He w. exists [e]. simpl. auto. Qed.

Lemma effects_try {A} (r : result A) (msg : string) : effects P (try r msg).
Proof. destruct r; [apply effects_ret | apply effects_return]. Qed.

Lemma effects_check (r : option error) (msg : string) : effects P (check r msg).
Proof. destruct r; [apply effects_return | apply effects_ret]. Qed.

Lemma effects_index0 (chain : list bytes) : effects P (index0 chain).
Proof. destruct chain; [apply effects_panic | apply effects_ret]. Qed.

Lemma effects_certificateNeedsUpdate domain cert :
  effects P (certificateNeedsUpdate domain cert).
Proof. intros w. exists []. rewrite app_nil_r. auto. Qed.

Lemma effects_PathExists (path : string) : effects P (PathExists path).
Proof. intros w. exists []. rewrite app_nil_r. auto. Qed.

Lemma effects_ReadFile (path : string) : P (EvReadFile path) -> effects P (ReadFile path).
Proof. intros He w. exists [EvReadFile path]. simpl. auto. Qed.

Lemma effects_Remove (path : string) : P (EvRemove path) -> effects P (Remove path).
Proof. intros He w. exists [EvRemove path]. simpl. auto. Qed.

Lemma effects_Sleep (d : time.Duration) : P (EvSleep d) -> effects P (Sleep d).
Proof. intros He w. exists [EvSleep d]. simpl. auto. Qed.

Lemma effects_Registration_Register (E : Env) :
  P EvRegister -> effects P (Registration_Register E).
Proof. intros He w. exists [EvRegister]. simpl. auto. Qed.

Lemma effects_Certificate_Obtain (E : Env) request :
  P (EvObtain request) -> effects P (Certificate_Obtain E request).
Proof. intros He w. exists [EvObtain request]. simpl. auto. Qed.

Lemma effects_defer {A} (cleanup : World -> World) (body : M A) :
  (forall w, exists tr, trace (cleanup w) = trace w ++ tr /\ Forall P tr) ->
  effects P body -> effects P (defer cleanup body).
Proof.
  intros Hc Hb w. unfold defer. destruct (Hb w) as (tr & Htr & HP).
  destruct (body w) as [o w']; simpl in *.
  destruct (Hc w') as (tr' & Htr' & HP').
  exists (tr ++ tr'). rewrite Htr', Htr, app_assoc. split; [reflexivity|].
  apply Forall_app; auto.
Qed.

Lemma effects_retried {A} (attempt : M (result A)) (warning failure : string) :
  effects P attempt -> P (EvLog Warn warning) -> P (EvSleep (10 * time.Second)) ->
  effects P (retried attempt warning failure).
Proof.
  intros Ha Hw Hs.
  assert (Hloop : forall n val err, effects P (retryLoop attempt warning n val err)).
  { induction n as [|n IH]; intros val err; simpl; [apply effects_ret|].
    apply effects_bind; [exact Ha|]. intros [a|e]; [apply effects_ret|].
    destruct (isRateLimited e); [apply effects_ret|].
    apply effects_bind; [by apply effects_effect|]. intros _.
    apply effects_bind; [by apply effects_Sleep|]. intros _. apply IH. }
  unfold retried. apply effects_bind; [apply Hloop|]. intros [val err].
  apply effects_bind; [apply effects_check | intros _; apply effects_ret].
Qed.
End Effects.

Lemma effects_weaken (P Q : event -> Prop) {A} (m : M A) :
  (forall e, P e -> Q e) -> effects P m -> effects Q m.
Proof.
  intros HPQ Hm w. destruct (Hm w) as (tr & Htr & HP).
  exists tr. split; [exact Htr|]. eapply Forall_impl; eauto.
Qed.

Lemma bufferedCertificate_allowed (E : Env) (challengeType : string) (clustered : bool)
    (domain email caURL : string) (force : bool) :
  effects (allowed E challengeType clustered domain email caURL force)
    (bufferedCertificate E (VarPath E ClusterCertFilename) clustered domain force).
Proof.
  assert (Hskip : force = true \/ clustered = false ->
            effects (allowed E challengeType clustered domain email caURL force)
              (bufferedCertificate E (VarPath E ClusterCertFilename) clustered domain force)).
  { intros H w. rewrite bufferedCertificate_skipped by tauto.
    exists []. rewrite app_nil_r. auto. }
  destruct force; [auto|]. destruct clustered; [|auto]. clear Hskip.
  unfold bufferedCertificate. simpl.
  apply effects_bind; [apply effects_PathExists|]. intros [|]; [|apply effects_ret].
  apply effects_bind; [apply effects_ReadFile; simpl; auto|]. intros r.
  apply effects_bind; [apply effects_try|]. intros clusterCert.
  apply effects_bind; [apply effects_ReadFile; simpl; auto|]. intros r'.
  apply effects_bind; [apply effects_try|]. intros key.
  apply effects_bind; [apply effects_try|]. intros keyPair.
  apply effects_bind; [apply effects_index0|]. intros leaf.
  apply effects_bind; [apply effects_try|]. intros cert.
  apply effects_bind; [apply effects_certificateNeedsUpdate|]. intros needs.
  destruct (negb needs); [apply effects_return | apply effects_ret].
Qed.

Lemma try_Next {A} (r : result A) (msg : string) (w w' : World) (a : A) :
  try r msg w = (Next a, w') -> r = Ok a.
Proof. destruct r; simpl; intros [=]; congruence. Qed.

Lemma clearBuffer_allowed (E : Env) (challengeType : string) (clustered : bool)
    (domain email caURL : string) (force : bool) :
  effects (allowed E challengeType clustered domain email caURL force)
    (clearBuffer (VarPath E ClusterCertFilename)).
Proof.
  unfold clearBuffer. apply effects_bind; [apply effects_PathExists|].
  intros [|]; [apply effects_Remove; reflexivity | apply effects_ret].
Qed.

Lemma dns01_allowed (E : Env) (clustered : bool) (domain email caURL : string)
    (force : bool) :
  effects (allowed E "DNS-01" clustered domain email caURL force)
    (dns01 E domain email caURL).
Proof.
  unfold dns01. destruct (ACMEDNS E) as [[provider environment] resolvers] eqn:Hcfg.
  destruct (String.eqb provider ""); [apply effects_return|].
  apply effects_bind; [apply effects_effect; simpl; auto|]. intros _.
  eapply effects_bind_given with (Q := fun tmpDir => MkdirTemp E "" "lego" = Ok tmpDir);
    [apply effects_try | intros w a w'; apply try_Next |].
  intros tmpDir Htmp. apply effects_defer.
  - intros w. unfold removeTmpDir. destruct (RemoveAll E tmpDir).
    + exists [EvRemoveAll tmpDir; EvLog Warn "Failed to remove temporary directory"].
      simpl. rewrite <- app_assoc. split; [reflexivity|].
      repeat constructor; simpl; auto.
    + exists [EvRemoveAll tmpDir]. split; [reflexivity|].
      repeat constructor; simpl; auto.
  - apply effects_bind.
    { apply effects_effect. simpl. rewrite Hcfg. simpl. eauto 10. }
    intros _. apply effects_bind; [apply effects_check|]. intros _.
    apply effects_bind; [apply effects_effect; simpl; eauto 10|]. intros _.
    apply effects_bind; [apply effects_try|]. intros certInfo. apply effects_return.
Qed.

Lemma http01_allowed (E : Env) (challengeType : string) (clustered : bool)
    (certInfo : localtls.CertInfo) (domain email caURL : string) (force : bool) :
  challengeType <> "DNS-01" -> LoadCert E (VarDir E) = Ok certInfo ->
  effects (allowed E challengeType clustered domain email caURL force)
    (http01 E certInfo domain email caURL).
Proof.
  intros Hct Hload. unfold http01.
  apply effects_bind; [by apply effects_effect|]. intros _.
  eapply effects_bind_given with (Q := fun k => GenerateKey E = Ok k);
    [apply effects_try | intros w a w'; apply try_Next |].
  intros privateKey Hkey. cbv zeta.
  apply effects_bind; [apply effects_effect; simpl; eauto|]. intros _.
  apply effects_bind; [apply effects_check|]. intros _.
  apply effects_bind; [by apply effects_effect|]. intros _.
  apply effects_bind; [apply effects_check|]. intros _.
  apply effects_bind.
  { unfold register. apply effects_retried; simpl; auto.
    by apply effects_Registration_Register. }
  intros reg. apply effects_bind; [by apply effects_effect|]. intros _.
  apply effects_bind.
  { unfold obtain. apply effects_retried; simpl; auto.
    apply effects_Certificate_Obtain. simpl. eauto. }
  intros certificates. apply effects_bind; [by apply effects_effect|]. intros _.
  apply effects_return.
Qed.

Lemma renew_allowed (E : Env) (challengeType : string) (clustered : bool)
    (domain email caURL : string) (force : bool) :
  effects (allowed E challengeType clustered domain email caURL force)
    (renew E challengeType domain email caURL force).
Proof.
  unfold renew. apply effects_bind; [by apply effects_effect|]. intros _.
  eapply effects_bind_given
    with (Q := fun certInfo => LoadCert E (VarDir E) = Ok certInfo);
    [apply effects_try | intros w a w'; apply try_Next |].
  intros certInfo Hload.
  apply effects_bind; [apply effects_index0|]. intros leaf.
  apply effects_bind; [apply effects_try|]. intros cert.
  apply effects_bind.
  { destruct (negb force); [|apply effects_ret].
    apply effects_bind; [apply effects_certificateNeedsUpdate|].
    intros needs. apply effects_ret. }
  intros [|].
  - apply effects_bind; [by apply effects_effect | intros _; apply effects_return].
  - unfold issue. destruct (String.eqb_spec challengeType "DNS-01") as [->|Hct].
    + apply dns01_allowed.
    + by apply http01_allowed.
Qed.

(** Every effect of a call is one the call's arguments allow. *)
Lemma UpdateCertificate_allowed (E : Env) (challengeType : string) (clustered : bool)
    (domain email caURL : string) (force : bool) :
  effects (allowed E challengeType clustered domain email caURL force)
    (UpdateCertificate E challengeType clustered domain email caURL force).
Proof.
  unfold UpdateCertificate.
  apply effects_bind; [apply bufferedCertificate_allowed|]. intros _.
  apply effects_bind; [apply clearBuffer_allowed|]. intros _.
  apply renew_allowed.
Qed.

(** X1. A call with challenge type "DNS-01" never uses the ACME client: it
    generates no account key, creates no client, registers no solver, makes
    no registration or issuance call and never sleeps. *)
Theorem dns01_never_calls_the_client (E : Env) (w : World) (clustered : bool)
    (domain email caURL : string) (force : bool) :
  exists tr,
    trace (snd (UpdateCertificate E "DNS-01" clustered domain email caURL force w)) =
      trace w ++ tr /\
    Forall (fun e => isACME e = false) tr.
Proof.
  destruct (UpdateCertificate_allowed E "DNS-01" clustered domain email caURL force w)
    as (tr & Htr & Hall).
  exists tr. split; [exact Htr|]. eapply Forall_impl; [exact Hall|].
  intros [] H; simpl in *; try reflexivity; try (exfalso; tauto).
Qed.

(** X2. A call with any other challenge type never creates a temporary
    directory, runs no subprocess and loads no certificate from a temporary
    directory. *)
Theorem http01_never_runs_a_subprocess (E : Env) (w : World) (challengeType : string)
    (clustered : bool) (domain email caURL : string) (force : bool) :
  challengeType <> "DNS-01" ->
  exists tr,
    trace (snd (UpdateCertificate E challengeType clustered domain email caURL force w)) =
      trace w ++ tr /\
    Forall (fun e => isSubprocess e = false) tr.
Proof.
  intros Hct.
  destruct (UpdateCertificate_allowed E challengeType clustered domain email caURL force w)
    as (tr & Htr & Hall).
  exists tr. split; [exact Htr|]. eapply Forall_impl; [exact Hall|].
  intros [] H; simpl in *; try reflexivity; try (exfalso; tauto).
Qed.

Lemma http01_never_runs_a_subprocess_witness :
  exists tr,
    trace (snd (UpdateCertificate caRecovers "HTTP-01" true "example.org"
                  "admin@example.org" "" true freshBuffer)) = tr /\
    Forall (fun e => isSubprocess e = false) tr.
Proof.
  destruct (http01_never_runs_a_subprocess caRecovers freshBuffer "HTTP-01" true
              "example.org" "admin@example.org" "" true) as (tr & Htr & Hall).
  - discriminate.
  - exists tr. split; [exact Htr | exact Hall].
Defined.

(** X3. A call reads no file of the state directory but the buffer file and
    the cluster key file, and those only when clustered is true and force is
    false; it removes no file but the buffer file. *)
Theorem only_the_buffer_is_read_and_removed (E : Env) (w : World)
    (challengeType : string) (clustered : bool) (domain email caURL : string)
    (force : bool) :
  exists tr,
    trace (snd (UpdateCertificate E challengeType clustered domain email caURL force w)) =
      trace w ++ tr /\
    (forall p, In (EvReadFile p) tr ->
       clustered = true /\ force = false /\
       (p = VarPath E ClusterCertFilename \/ p = VarPath E "cluster.key")) /\
    (forall p, In (EvRemove p) tr -> p = VarPath E ClusterCertFilename).
Proof.
  destruct (UpdateCertificate_allowed E challengeType clustered domain email caURL force w)
    as (tr & Htr & Hall).
  exists tr. split; [exact Htr|]. rewrite Forall_forall in Hall.
  split; intros p Hin; apply list_elem_of_In in Hin; exact (Hall _ Hin).
Qed.

Lemma only_the_buffer_is_read_and_removed_witness :
  exists tr,
    trace (snd (UpdateCertificate (caUp "dummy" (10 * day)) "HTTP-01" true
                  "example.org" "admin@example.org" "" false staleBuffer)) = tr /\
    In (EvReadFile bufferPath) tr /\ In (EvRemove bufferPath) tr /\
    (forall p, In (EvReadFile p) tr -> p = bufferPath \/ p = keyPath).
Proof.
  destruct (only_the_buffer_is_read_and_removed (caUp "dummy" (10 * day)) staleBuffer
              "HTTP-01" true "example.org" "admin@example.org" "" false)
    as (tr & Htr & Hread & Hremove).
  exists tr. split; [exact Htr|].
  assert (Hin : In (EvReadFile bufferPath) tr /\ In (EvRemove bufferPath) tr).
  { change (trace staleBuffer ++ tr) with tr in Htr. subst tr. vm_compute. tauto. }
  split; [tauto|]. split; [tauto|].
  intros p Hp. destruct (Hread p Hp) as (_ & _ & H). exact H.
Defined.

(** X4. Every certificate request a call sends to the CA names exactly the
    requested domain, asks for the bundle and carries the private key of the
    active certificate; every client is configured for RSA-2048 keys, with
    the given e-mail, and with the given CA directory URL or, when that is
    empty, the Let's Encrypt directory; every sleep lasts 10 seconds. *)
Theorem requests_are_for_the_domain (E : Env) (w : World) (challengeType : string)
    (clustered : bool) (domain email caURL : string) (force : bool) :
  exists tr,
    trace (snd (UpdateCertificate E challengeType clustered domain email caURL force w)) =
      trace w ++ tr /\
    (forall req, In (EvObtain req) tr ->
       certificate.Domains req = [domain] /\ certificate.Bundle req = true /\
       exists certInfo, LoadCert E (VarDir E) = Ok certInfo /\
         certificate.ReqPrivateKey req = tls.PrivateKey (localtls.KeyPair certInfo)) /\
    (forall cfg, In (EvNewClient cfg) tr ->
       lego.KeyType_ cfg = lego.RSA2048 /\ lego.UserEmail cfg = email /\
       lego.CADirURL cfg = if String.eqb caURL "" then letsEncryptURL else caURL) /\
    (forall d, In (EvSleep d) tr -> d = 10 * time.Second).
Proof.
  destruct (UpdateCertificate_allowed E challengeType clustered domain email caURL force w)
    as (tr & Htr & Hall).
  exists tr. split; [exact Htr|]. rewrite Forall_forall in Hall.
  split; [|split].
  - intros req Hin. apply list_elem_of_In in Hin.
    destruct (Hall _ Hin) as (_ & certInfo & Hload & ->). simpl. eauto.
  - intros cfg Hin. apply list_elem_of_In in Hin.
    destruct (Hall _ Hin) as (_ & accountKey & _ & ->). simpl.
    destruct (String.eqb caURL ""); auto.
  - intros d Hin. apply list_elem_of_In in Hin. exact (proj2 (Hall _ Hin)).
Qed.

Lemma requests_are_for_the_domain_witness :
  exists tr,
    trace (snd (UpdateCertificate caRecovers "HTTP-01" false "example.org"
                  "admin@example.org" "" false (world []))) = tr /\
    In (EvObtain exampleRequest) tr /\
    (forall req, In (EvObtain req) tr -> req = exampleRequest).
Proof.
  destruct (requests_are_for_the_domain caRecovers (world []) "HTTP-01" false
              "example.org" "admin@example.org" "" false)
    as (tr & Htr & Hreq & _).
  exists tr. split; [exact Htr|]. split.
  - change (trace (world []) ++ tr) with tr in Htr. subst tr. vm_compute. tauto.
  - intros [ds b k] Hin. destruct (Hreq _ Hin) as (Hd & Hb & ci & Hload & Hk).
    simpl in *. injection Hload as <-. subst. reflexivity.
Defined.

(** ** What a call leaves of the state directory *)

Lemma framed_bufferedCertificate (E : Env) (path : string) (clustered : bool)
    (domain : string) (force : bool) :
  framed (bufferedCertificate E path clustered domain force).
Proof.
  unfold bufferedCertificate. apply framed_bind.
  - destruct (negb force && clustered); [intros w; apply frame_refl | framing].
  - intros [|]; framing.
    match goal with |- framed (if ?b then _ else _) => destruct b end; framing.
Qed.

(** X5. The state directory after a call is the state directory before it,
    except that the buffer file may be gone: no other entry is added, removed
    or changed. *)
Theorem state_directory_only_loses_the_buffer (E : Env) (w : World)
    (challengeType : string) (clustered : bool) (domain email caURL : string)
    (force : bool) :
  let after := fs (snd (UpdateCertificate E challengeType clustered domain email
                          caURL force w)) in
  (after = fs w \/ after = delete (VarPath E ClusterCertFilename) (fs w)) /\
  (forall p, p <> VarPath E ClusterCertFilename -> after !! p = fs w !! p).
Proof.
  intros after.
  assert (H : after = fs w \/ after = delete (VarPath E ClusterCertFilename) (fs w)).
  { subst after. unfold UpdateCertificate.
    pose proof (framed_bufferedCertificate E (VarPath E ClusterCertFilename)
                  clustered domain force w) as [Hfs1 _].
    unfold bind.
    destruct (bufferedCertificate E (VarPath E ClusterCertFilename) clustered domain
                force w) as [[[]| |] w1]; simpl in *; auto.
    destruct (fs w1 !! VarPath E ClusterCertFilename) as [n|] eqn:Hn.
    - rewrite (clearBuffer_present _ w1 ltac:(eauto)).
      destruct (renew_frame E challengeType domain email caURL force
                  (removed (VarPath E ClusterCertFilename) w1)) as [Hfs _].
      right. rewrite Hfs. simpl. by rewrite Hfs1.
    - rewrite (clearBuffer_absent _ w1 Hn).
      destruct (renew_frame E challengeType domain email caURL force w1) as [Hfs _].
      left. rewrite Hfs. exact Hfs1. }
  split; [exact H|]. intros p Hp.
  destruct H as [-> | ->]; [reflexivity | by apply lookup_delete_ne].
Qed.

Lemma state_directory_only_loses_the_buffer_witness :
  fs (snd (UpdateCertificate (caUp "dummy" (10 * day)) "DNS-01" true "example.org"
             "admin@example.org" "" false staleBuffer)) !! keyPath =
  Some (File (pem "key")).
Proof.
  destruct (state_directory_only_loses_the_buffer (caUp "dummy" (10 * day)) staleBuffer
              "DNS-01" true "example.org" "admin@example.org" "" false) as [_ H].
  rewrite (H keyPath); [reflexivity | discriminate].
Defined.

(** ** How long a call can sleep *)

Lemma spent_refl (w : World) : spent 0 0 w w.
Proof.
  exists []. rewrite app_nil_r. unfold count. simpl.
  split; [reflexivity|]. split; [lia|]. split; lia.
Qed.

Lemma spent_trans (s1 a1 s2 a2 : nat) (w1 w2 w3 : World) :
  spent s1 a1 w1 w2 -> spent s2 a2 w2 w3 -> spent (s1 + s2) (a1 + a2) w1 w3.
Proof.
  intros (t1 & Ht1 & Hs1 & Ha1 & Hc1) (t2 & Ht2 & Hs2 & Ha2 & Hc2).
  exists (t1 ++ t2). rewrite Ht2, Ht1, app_assoc, !count_app.
  split; [reflexivity|]. split; [lia|]. split; [lia|].
  rewrite Hc2, Hc1, Nat2Z.inj_add. lia.
Qed.

Lemma spent_le (s a s' a' : nat) (w w' : World) :
  (s <= s')%nat -> (a <= a')%nat -> spent s a w w' -> spent s' a' w w'.
Proof.
  intros Hs Ha (tr & Htr & Hs1 & Ha1 & Hc). exists tr. repeat split; auto; lia.
Qed.

Lemma spent_logged (evs : list event) (w : World) :
  count isSleep evs = 0%nat -> count isAttempt evs = 0%nat ->
  spent 0 0 w (logged evs w).
Proof.
  intros Hs Ha. exists evs. rewrite Hs, Ha. simpl. repeat split; auto; lia.
Qed.

Lemma spending_le (s a s' a' : nat) {A} (m : M A) :
  (s <= s')%nat -> (a <= a')%nat -> spending s a m -> spending s' a' m.
Proof. intros Hs Ha Hm w. eapply spent_le; eauto. Qed.

Lemma spending_ret {A} (x : A) : spending 0 0 (ret x).
Proof. intros w. apply spent_refl. Qed.

Lemma spending_return {A} r e : spending 0 0 (@return_ A r e).
Proof. intros w. apply spent_refl. Qed.

Lemma spending_panic {A} : spending 0 0 (@panic A).
Proof. intros w. apply spent_refl. Qed.

Lemma spending_bind (s1 a1 s2 a2 : nat) {A B} (m : M A) (k : A -> M B) :
  spending s1 a1 m -> (forall x, spending s2 a2 (k x)) ->
  spending (s1 + s2) (a1 + a2) (bind m k).
Proof.
  intros Hm Hk w. unfold bind. specialize (Hm w).
  destruct (m w) as [[x| |] w']; simpl in *.
  - eapply spent_trans; [exact Hm | apply Hk].
  - eapply spent_le; [| |exact Hm]; lia.
  - eapply spent_le; [| |exact Hm]; lia.
Qed.

(** When going on is cheaper than the worst case of [m]. *)
Lemma spending_bind_Next (s1 a1 s1' a1' s2 a2 : nat) {A B} (m : M A) (k : A -> M B) :
  spending s1' a1' m ->
  (forall w x w', m w = (Next x, w') -> spent s1 a1 w w') ->
  (forall x, spending s2 a2 (k x)) ->
  (s1' <= s1 + s2)%nat -> (a1' <= a1 + a2)%nat ->
  spending (s1 + s2) (a1 + a2) (bind m k).
Proof.
  intros Hm Hnext Hk Hs Ha w. unfold bind. specialize (Hm w).
  destruct (m w) as [[x| |] w'] eqn:Hrun; simpl in *.
  - eapply spent_trans; [exact (Hnext _ _ _ Hrun) | apply Hk].
  - eapply spent_le; [| |exact Hm]; lia.
  - eapply spent_le; [| |exact Hm]; lia.
Qed.

Lemma idle_bind {A B} (m : M A) (k : A -> M B) :
  spending 0 0 m -> (forall x, spending 0 0 (k x)) -> spending 0 0 (bind m k).
Proof. apply (spending_bind 0 0 0 0). Qed.

Lemma idle_effect (e : event) :
  isSleep e = false -> isAttempt e = false -> spending 0 0 (effect e).
Proof.
  intros Hs Ha w. apply spent_logged; unfold count; simpl; by rewrite ?Hs, ?Ha.
Qed.

Lemma idle_try {A} (r : result A) (msg : string) : spending 0 0 (try r msg).
Proof. destruct r; [apply spending_ret | apply spending_return]. Qed.

Lemma idle_check (r : option error) (msg : string) : spending 0 0 (check r msg).
Proof. destruct r; [apply spending_return | apply spending_ret]. Qed.

Lemma idle_index0 (chain : list bytes) : spending 0 0 (index0 chain).
Proof. destruct chain; [apply spending_panic | apply spending_ret]. Qed.

Lemma idle_certificateNeedsUpdate domain cert :
  spending 0 0 (certificateNeedsUpdate domain cert).
Proof. intros w. apply spent_refl. Qed.

Lemma idle_PathExists (path : string) : spending 0 0 (PathExists path).
Proof. intros w. apply spent_refl. Qed.

Lemma idle_ReadFile (path : string) : spending 0 0 (ReadFile path).
Proof. intros w. by apply spent_logged. Qed.

Lemma idle_log (l : level) (msg : string) : spending 0 0 (log l msg).
Proof. by apply idle_effect. Qed.

Lemma idle_Remove (path : string) : spending 0 0 (Remove path).
Proof.
  intros w. exists [EvRemove path]. simpl. repeat split; auto. unfold count; simpl. lia.
Qed.

Lemma idle_defer {A} (cleanup : World -> World) (body : M A) :
  (forall w, spent 0 0 w (cleanup w)) -> spending 0 0 body ->
  spending 0 0 (defer cleanup body).
Proof.
  intros Hc Hb w. unfold defer. specialize (Hb w).
  destruct (body w) as [o w']; simpl in *.
  apply (spent_trans 0 0 0 0 _ _ _ Hb (Hc w')).
Qed.

Lemma idle_removeTmpDir (E : Env) (tmpDir : string) (w : World) :
  spent 0 0 w (removeTmpDir E tmpDir w).
Proof.
  unfold removeTmpDir. destruct (RemoveAll E tmpDir).
  - apply (spent_trans 0 0 0 0 _ (emit (EvRemoveAll tmpDir) w)); by apply spent_logged.
  - by apply spent_logged.
Qed.

Create HintDb idle.
#[local] Hint Resolve spending_ret spending_return spending_panic idle_try
  idle_check idle_index0 idle_certificateNeedsUpdate idle_PathExists idle_ReadFile
  idle_log idle_Remove idle_removeTmpDir : idle.
#[local] Hint Extern 1 (spending 0 0 (effect _)) =>
  apply idle_effect; reflexivity : idle.

Ltac idling :=
  repeat first
    [ apply idle_bind; [solve [auto with idle] | intros ?]
    | apply idle_bind; [| intros ?]
    | apply idle_defer; [solve [auto with idle] |]
    | solve [auto with idle]
    | match goal with |- spending _ _ (if ?b then _ else _) => destruct b end ].

Lemma idle_bufferedCertificate (E : Env) (path : string) (clustered : bool)
    (domain : string) (force : bool) :
  spending 0 0 (bufferedCertificate E path clustered domain force).
Proof. unfold bufferedCertificate. idling. Qed.

Lemma idle_clearBuffer (path : string) : spending 0 0 (clearBuffer path).
Proof. unfold clearBuffer. idling. Qed.

Lemma idle_dns01 (E : Env) (domain email caURL : string) :
  spending 0 0 (dns01 E domain email caURL).
Proof.
  unfold dns01. destruct (ACMEDNS E) as [[provider environment] resolvers]. idling.
Qed.

Lemma retried_spending {A} (attempt : M (result A)) (warning failure : string)
    (script : nat -> result A) (calls : World -> nat) (ev : event) :
  (forall w, exists w',
     attempt w = (Next (script (calls w)), w') /\
     fs w' = fs w /\ clock w' = clock w /\
     trace w' = trace w ++ [ev] /\ calls w' = S (calls w)) ->
  (forall evs w, calls (logged evs w) = calls w) ->
  (forall d w, calls (snd (Sleep d w)) = calls w) ->
  isSleep ev = false -> isAttempt ev = true ->
  spending 5 5 (retried attempt warning failure) /\
  (forall w x w', retried attempt warning failure w = (Next x, w') -> spent 4 5 w w').
Proof.
  intros H1 H2 H3 Hs Ha.
  assert (Hrounds : forall k w w' last,
            trace w' = trace w ++ rounds k ev warning ++ last ->
            clock w' = clock w + Z.of_nat k * (10 * time.Second) ->
            count isSleep last = 0%nat ->
            spent k (k + count isAttempt last) w w').
  { intros k w w' last Htr Hck Hl. exists (rounds k ev warning ++ last).
    rewrite !count_app, count_rounds_sleep, count_rounds_attempt, Hl by assumption.
    rewrite Nat.add_0_r. repeat split; auto. }
  split.
  - intros w.
    destruct (retried_run attempt warning failure script calls ev H1 H2 H3 w)
      as (k & w' & Hk & _ & _ & Hck & Hend).
    destruct Hend as [(Hlt & Htr & Hout) | (-> & Htr & e & _ & Hrun)].
    + assert (Hw : snd (retried attempt warning failure w) = w')
        by (destruct Hout as [(a & _ & ->) | (e & _ & _ & ->)]; reflexivity).
      rewrite Hw. eapply spent_le; [| |apply (Hrounds k w w' [ev] Htr Hck)].
      * unfold retries in *. lia.
      * unfold count. simpl. rewrite Ha. simpl. unfold retries in *. lia.
      * unfold count. simpl. by rewrite Hs.
    + rewrite Hrun. simpl. rewrite <- (app_nil_r (rounds retries ev warning)) in Htr.
      eapply spent_le; [| |apply (Hrounds retries w w' [] Htr Hck eq_refl)];
        unfold retries, count; simpl; lia.
  - intros w x w0 Hnext.
    destruct (retried_run attempt warning failure script calls ev H1 H2 H3 w)
      as (k & w' & Hk & _ & _ & Hck & Hend).
    destruct Hend as [(Hlt & Htr & Hout) | (-> & Htr & e & _ & Hrun)].
    + assert (w0 = w') as ->.
      { destruct Hout as [(a & _ & Hr) | (e & _ & _ & Hr)];
          rewrite Hr in Hnext; congruence. }
      eapply spent_le; [| |apply (Hrounds k w w' [ev] Htr Hck)].
      * unfold retries in *. lia.
      * unfold count. simpl. rewrite Ha. simpl. unfold retries in *. lia.
      * unfold count. simpl. by rewrite Hs.
    + rewrite Hrun in Hnext. discriminate.
Qed.

Lemma http01_spending (E : Env) certInfo (domain email caURL : string) :
  spending 9 10 (http01 E certInfo domain email caURL).
Proof.
  destruct (retried_spending (Registration_Register E) registerWarning
              "Failed to register user" (Register E) registerCalls EvRegister
              (Registration_Register_run E) (fun _ _ => eq_refl) (fun _ _ => eq_refl)
              eq_refl eq_refl) as [Hreg Hreg_next].
  unfold http01.
  apply (spending_bind 0 0 9 10); [auto with idle|]. intros _.
  apply (spending_bind 0 0 9 10); [auto with idle|]. intros privateKey. cbv zeta.
  apply (spending_bind 0 0 9 10); [auto with idle|]. intros _.
  apply (spending_bind 0 0 9 10); [auto with idle|]. intros _.
  apply (spending_bind 0 0 9 10); [auto with idle|]. intros _.
  apply (spending_bind 0 0 9 10); [auto with idle|]. intros _.
  apply (spending_bind_Next 4 5 5 5 5 5); [exact Hreg | exact Hreg_next | | lia | lia].
  intros reg.
  apply (spending_bind 0 0 5 5); [auto with idle|]. intros _.
  apply (spending_bind 5 5 0 0).
  - apply (retried_spending (Certificate_Obtain E _) obtainWarning
             "Failed to obtain certificate" (Obtain E _) obtainCalls (EvObtain _)
             (Certificate_Obtain_run E _) (fun _ _ => eq_refl) (fun _ _ => eq_refl)
             eq_refl eq_refl).
  - intros certificates. idling.
Qed.

Lemma UpdateCertificate_spending (E : Env) (challengeType : string) (clustered : bool)
    (domain email caURL : string) (force : bool) :
  spending 9 10 (UpdateCertificate E challengeType clustered domain email caURL force).
Proof.
  unfold UpdateCertificate.
  apply (spending_bind 0 0 9 10); [apply idle_bufferedCertificate|]. intros _.
  apply (spending_bind 0 0 9 10); [apply idle_clearBuffer|]. intros _.
  unfold renew.
  apply (spending_bind 0 0 9 10); [auto with idle|]. intros _.
  apply (spending_bind 0 0 9 10); [auto with idle|]. intros certInfo.
  apply (spending_bind 0 0 9 10); [auto with idle|]. intros leaf.
  apply (spending_bind 0 0 9 10); [auto with idle|]. intros cert.
  apply (spending_bind 0 0 9 10); [idling|]. intros [|].
  - apply (spending_le 0 0); [lia | lia | idling].
  - unfold issue. destruct (String.eqb challengeType "DNS-01").
    + apply (spending_le 0 0); [lia | lia | apply idle_dns01].
    + apply http01_spending.
Qed.

(** X6. A call makes at most 10 calls to the CA and sleeps at most 9 times;
    its clock advances by exactly 10 seconds for each sleep, so by at most
    90 seconds in all, and never goes back. *)
Theorem backoff_is_bounded (E : Env) (w : World) (challengeType : string)
    (clustered : bool) (domain email caURL : string) (force : bool) :
  let w' := snd (UpdateCertificate E challengeType clustered domain email caURL force w) in
  exists tr, trace w' = trace w ++ tr /\
    (count isAttempt tr <= 10)%nat /\ (count isSleep tr <= 9)%nat /\
    clock w' = clock w + Z.of_nat (count isSleep tr) * (10 * time.Second) /\
    clock w <= clock w' <= clock w + 90 * time.Second.
Proof.
  intros w'.
  destruct (UpdateCertificate_spending E challengeType clustered domain email caURL
              force w) as (tr & Htr & Hs & Ha & Hck).
  exists tr. fold w' in Htr, Hck. repeat split; auto; rewrite Hck; unfold time.Second; lia.
Qed.

(** The bounds are reached: four failed registrations, then five failed
    requests for the certificate. *)
Example backoff_bound_is_reached :
  let w' := snd (UpdateCertificate caFlaky "HTTP-01" false "example.org"
                   "admin@example.org" "" false (world [])) in
  count isAttempt (trace w') = 10%nat /\ count isSleep (trace w') = 9%nat /\
  clock w' = 90 * time.Second.
Proof. vm_compute. repeat split; reflexivity. Qed.

(** ** What a call can return, and why *)

(** The returns of the buffer block: it falls through, fails, or returns the
    two files it has read. *)
Lemma bufferedCertificate_cases (E : Env) (clustered : bool) (domain : string)
    (force : bool) (w : World) :
  let path := VarPath E ClusterCertFilename in
  let o := fst (bufferedCertificate E path clustered domain force w) in
  o = Next tt \/ (exists e, o = Return None (Some e)) \/ o = Panic \/
  (clustered = true /\ force = false /\
   exists c k, readResult (fs w !! path) = Ok c /\
     readResult (fs w !! VarPath E "cluster.key") = Ok k /\
     o = Return (Some {| certificate.Certificate := c;
                         certificate.PrivateKey := k |}) None).
Proof.
  intros path o. subst o.
  destruct force; [left; by rewrite bufferedCertificate_skipped by auto|].
  destruct clustered; [|left; by rewrite bufferedCertificate_skipped by auto].
  run. repeat (cases; simpl); eauto 10.
  all: right; right; right; repeat split.
  all: repeat match goal with
       | H : ?x = Some _, H' : context [?x] |- _ => rewrite H in H'; simpl in H'
       end; simplify_eq; eauto.
Qed.

(** The returns of lines 89-103: a failure to load or parse the active
    certificate, "no renewal needed", or the challenge dispatch. *)
Lemma renew_cases (E : Env) (challengeType domain email caURL : string)
    (force : bool) (w : World) :
  let call := renew E challengeType domain email caURL force w in
  let loaded := emit (EvLoadCert (VarDir E)) w in
  (call = (Panic, loaded) \/ exists e, call = (Return None (Some e), loaded)) \/
  (exists certInfo leaf rest cert,
     LoadCert E (VarDir E) = Ok certInfo /\
     tls.Certificate (localtls.KeyPair certInfo) = leaf :: rest /\
     ParseCertificate E leaf = Ok cert /\
     ((force = false /\ fst (certificateNeedsUpdate domain cert w) = Next false /\
       call = (Return None None,
               logged [EvLoadCert (VarDir E);
                       EvLog Debug
                         "Skipping certificate renewal as it is still valid for more than 30 days"]
                 w)) \/
      ((force = true \/ fst (certificateNeedsUpdate domain cert w) = Next true) /\
       call = issue E challengeType certInfo domain email caURL loaded))).
Proof.
  intros call loaded. subst call loaded. unfold renew.
  destruct (LoadCert E (VarDir E)) as [certInfo|e] eqn:Hload;
    [|left; right; exists (Errorf "Failed to load certificate and key file" e);
      reflexivity].
  destruct (tls.Certificate (localtls.KeyPair certInfo)) as [|leaf rest] eqn:Hleaf;
    [left; left; run; reflexivity|].
  destruct (ParseCertificate E leaf) as [cert|e] eqn:Hparse;
    [|left; right; exists (Errorf "Failed to parse certificate" e); run; reflexivity].
  right. exists certInfo, leaf, rest, cert. repeat split; auto.
  rewrite certificateNeedsUpdate_run. cbn [fst].
  destruct force.
  - right. split; [auto|]. run. reflexivity.
  - run. unfold certificateNeedsUpdate. run.
    destruct (negb (slices_Contains (x509.DNSNames cert) domain)
              || time.After (clock w)
                   (time.Add (x509.NotAfter cert) (-30 * 24 * time.Hour))); simpl.
    + right. split; [auto | reflexivity].
    + left. repeat split. unfold emit. by rewrite logged_logged.
Qed.

(** X7. Once a certificate needs an update for a domain it needs it at any
    later time: the decision never goes back to "valid" as the clock
    advances. *)
Theorem needs_update_persists (d : string) (c : x509.Certificate) (w w' : World) :
  clock w <= clock w' ->
  fst (certificateNeedsUpdate d c w) = Next true ->
  fst (certificateNeedsUpdate d c w') = Next true.
Proof.
  intros Hle. rewrite !certificateNeedsUpdate_run. cbn [fst].
  intros [= H]. f_equal. apply orb_true_iff in H. apply orb_true_iff.
  destruct H as [H|H]; [left; exact H | right].
  unfold time.After in *. apply Z.ltb_lt in H. apply Z.ltb_lt. lia.
Qed.

Lemma needs_update_persists_witness :
  fst (certificateNeedsUpdate "example.org"
         {| x509.DNSNames := ["example.org"]; x509.NotAfter := 10 * day |}
         (snd (Sleep (10 * time.Second) (world [])))) = Next true.
Proof.
  apply (needs_update_persists _ _ (world [])); vm_compute; [discriminate | reflexivity].
Defined.

Lemma idle_clock (w w' : World) : spent 0 0 w w' -> clock w' = clock w.
Proof.
  intros (tr & _ & Hs & _ & Hck). rewrite Hck.
  assert (count isSleep tr = 0%nat) as -> by lia. lia.
Qed.

(** X8. When a call returns [nil, nil], force is false, the active
    certificate has been loaded and parsed, and [certificateNeedsUpdate]
    answers false for it and the requested domain: "no renewal needed" is
    never the answer to a forced call or for a certificate that is due. *)
Theorem nil_means_still_valid (E : Env) (w : World) (challengeType : string)
    (clustered : bool) (domain email caURL : string) (force : bool) :
  fst (UpdateCertificate E challengeType clustered domain email caURL force w) =
    Return None None ->
  force = false /\
  exists certInfo leaf rest cert,
    LoadCert E (VarDir E) = Ok certInfo /\
    tls.Certificate (localtls.KeyPair certInfo) = leaf :: rest /\
    ParseCertificate E leaf = Ok cert /\
    fst (certificateNeedsUpdate domain cert w) = Next false.
Proof.
  unfold UpdateCertificate, bind.
  pose proof (bufferedCertificate_cases E clustered domain force w) as Hb.
  pose proof (idle_clock _ _ (idle_bufferedCertificate E
                (VarPath E ClusterCertFilename) clustered domain force w)) as Hck1.
  cbv zeta in Hb.
  destruct (bufferedCertificate E (VarPath E ClusterCertFilename) clustered domain
              force w) as [o1 w1]; simpl in Hb, Hck1 |- *.
  destruct Hb as [-> | [(e & ->) | [-> | (_ & _ & c & k & _ & _ & ->)]]];
    try discriminate.
  pose proof (idle_clock _ _ (idle_clearBuffer (VarPath E ClusterCertFilename) w1))
    as Hck2.
  assert (Hclear : exists w2, clearBuffer (VarPath E ClusterCertFilename) w1 = (Next tt, w2)).
  { destruct (fs w1 !! VarPath E ClusterCertFilename) eqn:Hn.
    - rewrite clearBuffer_present by eauto. eauto.
    - rewrite clearBuffer_absent by auto. eauto. }
  destruct Hclear as [w2 Hclear]. rewrite Hclear in Hck2 |- *. simpl in Hck2.
  destruct (renew_cases E challengeType domain email caURL force w2)
    as [[Hr | (e & Hr)] | (certInfo & leaf & rest & cert & Hload & Hleaf & Hparse & Hr)].
  - rewrite Hr. discriminate.
  - rewrite Hr. discriminate.
  - destruct Hr as [(Hforce & Hvalid & Hr) | (_ & Hr)].
    + intros _. split; [exact Hforce|]. exists certInfo, leaf, rest, cert.
      repeat split; auto.
      rewrite <- Hvalid. apply certificateNeedsUpdate_clock. lia.
    + rewrite Hr. intros H. exfalso. eapply issue_not_nil. exact H.
Qed.

Lemma nil_means_still_valid_witness :
  exists cert, ParseCertificate (caUp "dummy" (90 * day)) (pem "active") = Ok cert /\
    fst (certificateNeedsUpdate "example.org" cert (world [])) = Next false.
Proof.
  destruct (nil_means_still_valid (caUp "dummy" (90 * day)) (world []) "HTTP-01" false
              "example.org" "admin@example.org" "" false)
    as (_ & certInfo & leaf & rest & cert & Hload & Hleaf & Hparse & Hvalid).
  - vm_compute. reflexivity.
  - injection Hload as <-. injection Hleaf as <- <-. eauto.
Defined.

Lemma dns01_success (E : Env) (domain email caURL : string) (w : World)
    (r : certificate.Resource) :
  fst (dns01 E domain email caURL w) = Return (Some r) None ->
  exists tmpDir certInfo,
    MkdirTemp E "" "lego" = Ok tmpDir /\
    RunCommandSplit E (Environ E ++ (ACMEDNS E).1.2) "lego"
      (legoArgs (ACMEDNS E).1.1 domain email tmpDir caURL (ACMEDNS E).2) = None /\
    KeyPairAndCA E (tmpDir +:+ "/certificates") domain = Ok certInfo /\
    r = {| certificate.Certificate := localtls.PublicKey certInfo;
           certificate.PrivateKey := localtls.PrivateKey certInfo |}.
Proof.
  unfold dns01, defer. destruct (ACMEDNS E) as [[provider environment] resolvers].
  run. repeat (cases; simpl; try discriminate).
  intros [= <-]. eauto 10.
Qed.

Lemma obtain_Next (E : Env) (request : certificate.ObtainRequest) (w w' : World)
    (v : option certificate.Resource) :
  obtain E request w = (Next v, w') ->
  exists n a, v = Some a /\ Obtain E request n = Ok a.
Proof.
  intros H.
  destruct (retried_run (Certificate_Obtain E request) obtainWarning
              "Failed to obtain certificate" (Obtain E request) obtainCalls
              (EvObtain request) (Certificate_Obtain_run E request)
              (fun _ _ => eq_refl) (fun _ _ => eq_refl) w)
    as (k & w'' & _ & _ & _ & _ & Hend).
  unfold obtain in H.
  destruct Hend as [(_ & _ & [(a & Hs & Hr) | (e & _ & _ & Hr)]) | (_ & _ & e & _ & Hr)];
    rewrite Hr in H; inversion H; eauto.
Qed.

Lemma http01_success (E : Env) (certInfo : localtls.CertInfo)
    (domain email caURL : string) (w : World) (r : certificate.Resource) :
  fst (http01 E certInfo domain email caURL w) = Return (Some r) None ->
  exists n,
    Obtain E {| certificate.Domains := [domain]; certificate.Bundle := true;
                certificate.ReqPrivateKey :=
                  tls.PrivateKey (localtls.KeyPair certInfo) |} n = Ok r.
Proof.
  unfold http01. run. repeat (cases; simpl; try discriminate).
  all: repeat match goal with
       | H : register ?E0 ?w0 = _ |- _ =>
           let P := fresh in
           pose proof (register_outcome E0 w0) as P; rewrite H in P; simpl in P; clear H
       | H : obtain ?E0 ?req ?w0 = (Next _, _) |- _ =>
           apply obtain_Next in H
       | H : obtain ?E0 ?req ?w0 = _ |- _ =>
           let P := fresh in
           pose proof (obtain_outcome E0 req w0) as P; rewrite H in P; simpl in P; clear H
       end.
  all: intros [=]; subst.
  all: repeat match goal with
       | H : exists _, _ |- _ => destruct H
       | H : _ /\ _ |- _ => destruct H
       | H : _ \/ _ |- _ => destruct H
       end; simplify_eq; eauto.
Qed.

(** X9. A certificate returned by a call is the buffered one, read from the
    buffer file and the cluster key file of a clustered, unforced call; or,
    for "DNS-01", the one found in the temporary directory after [lego] ran
    without error; or, for any other challenge type, one the CA issued in
    answer to the request for the domain. *)
Theorem returned_certificate_provenance (E : Env) (w : World) (challengeType : string)
    (clustered : bool) (domain email caURL : string) (force : bool)
    (r : certificate.Resource) :
  fst (UpdateCertificate E challengeType clustered domain email caURL force w) =
    Return (Some r) None ->
  (clustered = true /\ force = false /\
   readResult (fs w !! VarPath E ClusterCertFilename) = Ok (certificate.Certificate r) /\
   readResult (fs w !! VarPath E "cluster.key") = Ok (certificate.PrivateKey r))
  \/
  (challengeType = "DNS-01" /\
   exists tmpDir certInfo,
     MkdirTemp E "" "lego" = Ok tmpDir /\
     RunCommandSplit E (Environ E ++ (ACMEDNS E).1.2) "lego"
       (legoArgs (ACMEDNS E).1.1 domain email tmpDir caURL (ACMEDNS E).2) = None /\
     KeyPairAndCA E (tmpDir +:+ "/certificates") domain = Ok certInfo /\
     r = {| certificate.Certificate := localtls.PublicKey certInfo;
            certificate.PrivateKey := localtls.PrivateKey certInfo |})
  \/
  (challengeType <> "DNS-01" /\
   exists certInfo n,
     LoadCert E (VarDir E) = Ok certInfo /\
     Obtain E {| certificate.Domains := [domain]; certificate.Bundle := true;
                 certificate.ReqPrivateKey :=
                   tls.PrivateKey (localtls.KeyPair certInfo) |} n = Ok r).
Proof.
  unfold UpdateCertificate, bind.
  pose proof (bufferedCertificate_cases E clustered domain force w) as Hb.
  cbv zeta in Hb.
  destruct (bufferedCertificate E (VarPath E ClusterCertFilename) clustered domain
              force w) as [o1 w1]; simpl in Hb |- *.
  destruct Hb as [-> | [(e & ->) | [-> | (Hc & Hf & c & k & Hrc & Hrk & ->)]]];
    try discriminate.
  2:{ intros [= <-]. left. auto. }
  assert (Hclear : exists w2, clearBuffer (VarPath E ClusterCertFilename) w1 = (Next tt, w2)).
  { destruct (fs w1 !! VarPath E ClusterCertFilename) eqn:Hn.
    - rewrite clearBuffer_present by eauto. eauto.
    - rewrite clearBuffer_absent by auto. eauto. }
  destruct Hclear as [w2 ->].
  destruct (renew_cases E challengeType domain email caURL force w2)
    as [[Hr | (e & Hr)] | (certInfo & leaf & rest & cert & Hload & Hleaf & Hparse & Hr)].
  - rewrite Hr. discriminate.
  - rewrite Hr. discriminate.
  - destruct Hr as [(_ & _ & Hr) | (_ & Hr)]; rewrite Hr; [discriminate|].
    unfold issue. destruct (String.eqb_spec challengeType "DNS-01") as [->|Hct].
    + intros H. right; left. split; [reflexivity|]. eapply dns01_success; eauto.
    + intros H. right; right. split; [exact Hct|].
      destruct (http01_success _ _ _ _ _ _ _ H) as [n Hn]. eauto.
Qed.

Lemma returned_certificate_provenance_witness :
  exists n, Obtain caRecovers exampleRequest n = Ok issuedResource.
Proof.
  destruct (returned_certificate_provenance caRecovers (world []) "HTTP-01" false
              "example.org" "admin@example.org" "" false issuedResource)
    as [(H & _) | [(H & _) | (_ & certInfo & n & Hload & Hn)]];
    [vm_compute; reflexivity | discriminate | discriminate |].
  injection Hload as <-. exists n. exact Hn.
Defined.

(** ** The way to the challenge dispatch *)

Ltac effecting :=
  repeat first
    [ apply effects_certificateNeedsUpdate | apply effects_PathExists
    | apply effects_ret | apply effects_return | apply effects_panic
    | apply effects_try | apply effects_check | apply effects_index0
    | apply effects_ReadFile; reflexivity
    | apply effects_Remove; reflexivity
    | apply effects_effect; reflexivity
    | apply effects_bind; [| intros ?]
    | match goal with |- effects _ (if ?b then _ else _) => destruct b end ].

(** A call ends before the dispatch, with quiet effects only, or it is the
    dispatch run after quiet effects, at the same time of the clock. *)
Lemma UpdateCertificate_reaches (E : Env) (w : World) (challengeType : string)
    (clustered : bool) (domain email caURL : string) (force : bool) :
  let call := UpdateCertificate E challengeType clustered domain email caURL force w in
  exists pre, Forall (fun e => isQuiet e = true) pre /\
    (trace (snd call) = trace w ++ pre \/
     exists certInfo w2,
       LoadCert E (VarDir E) = Ok certInfo /\
       trace w2 = trace w ++ pre /\ clock w2 = clock w /\
       call = issue E challengeType certInfo domain email caURL w2).
Proof.
  intros call. subst call. unfold UpdateCertificate, bind.
  assert (Hb : effects (fun e => isQuiet e = true)
                 (bufferedCertificate E (VarPath E ClusterCertFilename) clustered
                    domain force))
    by (unfold bufferedCertificate; effecting).
  destruct (Hb w) as (t1 & Ht1 & Hq1).
  pose proof (idle_clock _ _ (idle_bufferedCertificate E
                (VarPath E ClusterCertFilename) clustered domain force w)) as Hck1.
  destruct (bufferedCertificate E (VarPath E ClusterCertFilename) clustered domain
              force w) as [[[]| |] w1]; simpl in *; eauto.
  assert (Hc : effects (fun e => isQuiet e = true)
                 (clearBuffer (VarPath E ClusterCertFilename)))
    by (unfold clearBuffer; effecting).
  destruct (Hc w1) as (t2 & Ht2 & Hq2).
  pose proof (idle_clock _ _ (idle_clearBuffer (VarPath E ClusterCertFilename) w1))
    as Hck2.
  assert (Hclear : exists w2, clearBuffer (VarPath E ClusterCertFilename) w1 = (Next tt, w2)).
  { destruct (fs w1 !! VarPath E ClusterCertFilename) eqn:Hn.
    - rewrite clearBuffer_present by eauto. eauto.
    - rewrite clearBuffer_absent by auto. eauto. }
  destruct Hclear as [w2 Hclear]. rewrite Hclear in Ht2, Hck2 |- *. simpl in Ht2, Hck2.
  destruct (renew_cases E challengeType domain email caURL force w2)
    as [[Hr | (e & Hr)] | (certInfo & leaf & rest & cert & Hload & Hleaf & Hparse & Hr)].
  - exists (t1 ++ t2 ++ [EvLoadCert (VarDir E)]). split.
    + repeat (apply Forall_app; split; auto).
    + left. rewrite Hr. simpl. rewrite Ht2, Ht1, <- !app_assoc. reflexivity.
  - exists (t1 ++ t2 ++ [EvLoadCert (VarDir E)]). split.
    + repeat (apply Forall_app; split; auto).
    + left. rewrite Hr. simpl. rewrite Ht2, Ht1, <- !app_assoc. reflexivity.
  - destruct Hr as [(_ & _ & Hr) | (_ & Hr)].
    + eexists (t1 ++ t2 ++ [EvLoadCert (VarDir E); EvLog Debug _]). split.
      * repeat (apply Forall_app; split; auto).
      * left. rewrite Hr. simpl. rewrite Ht2, Ht1, <- !app_assoc. reflexivity.
    + exists (t1 ++ t2 ++ [EvLoadCert (VarDir E)]). split.
      * repeat (apply Forall_app; split; auto).
      * right. exists certInfo, (emit (EvLoadCert (VarDir E)) w2).
        split; [exact Hload|]. split; [|split; [|exact Hr]].
        -- simpl. rewrite Ht2, Ht1, <- !app_assoc. reflexivity.
        -- simpl. lia.
Qed.

Lemma http01_never_runs_a_subprocess_aux (E : Env) certInfo
    (domain email caURL : string) (w : World) :
  exists tr, trace (snd (http01 E certInfo domain email caURL w)) = trace w ++ tr /\
    Forall (fun e => isSubprocess e = false) tr.
Proof.
  assert (H : effects (fun e => isSubprocess e = false)
                (http01 E certInfo domain email caURL)).
  { unfold http01, register, obtain.
    repeat first
      [ apply effects_retried; [| reflexivity | reflexivity]
      | apply effects_Registration_Register; reflexivity
      | apply effects_Certificate_Obtain; reflexivity
      | apply effects_try | apply effects_check | apply effects_return
      | apply effects_effect; reflexivity
      | apply effects_bind; [| intros ?] ]. }
  apply H.
Qed.

(** The effects of the DNS-01 branch: none, the failed attempt to make the
    temporary directory, or the directory made, [lego] run once, perhaps the
    certificate loaded, and the directory removed. *)
Lemma dns01_trace (E : Env) (domain email caURL : string) (w : World) :
  let w' := snd (dns01 E domain email caURL w) in
  trace w' = trace w \/
  ((exists e, MkdirTemp E "" "lego" = Err e) /\
   trace w' = trace w ++ [EvMkdirTemp "" "lego"]) \/
  exists tmpDir mid,
    MkdirTemp E "" "lego" = Ok tmpDir /\
    trace w' =
      trace w ++
      [EvMkdirTemp "" "lego";
       EvRunCommand (Environ E ++ (ACMEDNS E).1.2) "lego"
         (legoArgs (ACMEDNS E).1.1 domain email tmpDir caURL (ACMEDNS E).2)] ++
      mid ++ EvRemoveAll tmpDir :: removalWarning E tmpDir /\
    (mid = [] \/ mid = [EvKeyPairAndCA (tmpDir +:+ "/certificates") domain]).
Proof.
  unfold dns01, defer, removeTmpDir, removalWarning.
  destruct (ACMEDNS E) as [[provider environment] resolvers].
  destruct (String.eqb provider ""); [left; reflexivity|]. right.
  destruct (MkdirTemp E "" "lego") as [tmpDir|e] eqn:Htmp;
    [right | left; split; [eauto | reflexivity]].
  run.
  destruct (RunCommandSplit E _ _ _); simpl.
  - exists tmpDir, []. split; [reflexivity|]. split; [|auto].
    destruct (RemoveAll E tmpDir); simpl; rewrite <- ?app_assoc; reflexivity.
  - exists tmpDir, [EvKeyPairAndCA (tmpDir +:+ "/certificates") domain].
    split; [reflexivity|]. split; [|auto].
    destruct (KeyPairAndCA E _ _); simpl;
      destruct (RemoveAll E tmpDir); simpl; rewrite <- ?app_assoc; reflexivity.
Qed.

(** X10. A call that made the temporary directory removes it as its last
    effect, whether [lego] and the load of its certificate succeeded or
    failed; only the warning about a failed removal can follow, and the
    removal does not change what the call returns.  [lego] is run at most
    once per call. *)
Theorem temporary_directory_is_removed (E : Env) (w : World) (challengeType : string)
    (clustered : bool) (domain email caURL : string) (force : bool) (tmpDir : string) :
  MkdirTemp E "" "lego" = Ok tmpDir ->
  exists tr,
    trace (snd (UpdateCertificate E challengeType clustered domain email caURL force w)) =
      trace w ++ tr /\
    (count isRunCommand tr <= 1)%nat /\
    (In (EvMkdirTemp "" "lego") tr ->
     exists before,
       tr = before ++ EvRemoveAll tmpDir :: removalWarning E tmpDir /\
       ~ In (EvRemoveAll tmpDir) before).
Proof.
  intros Htmp.
  destruct (UpdateCertificate_reaches E w challengeType clustered domain email caURL force)
    as (pre & Hq & [Hearly | (certInfo & w2 & _ & Hpre & _ & Hcall)]).
  - exists pre. split; [exact Hearly|].
    assert (Hnone : forall e, In e pre -> isQuiet e = true)
      by (intros e He; rewrite Forall_forall in Hq; apply Hq, list_elem_of_In, He).
    split.
    + clear Hearly. induction pre as [|e pre IH]; [unfold count; simpl; lia|].
      assert (isRunCommand e = false)
        by (specialize (Hnone e (or_introl eq_refl)); destruct e; auto; discriminate).
      unfold count in *. simpl. rewrite H. apply IH.
      * by inversion Hq.
      * intros e' He'. apply Hnone. by right.
    + intros Hin. apply Hnone in Hin. discriminate.
  - rewrite Hcall. unfold issue.
    assert (Hquiet : forall e, In e pre -> isQuiet e = true)
      by (intros e He; rewrite Forall_forall in Hq; apply Hq, list_elem_of_In, He).
    assert (Hrun0 : count isRunCommand pre = 0%nat).
    { clear Hpre. induction pre as [|e pre IH]; [reflexivity|].
      assert (isRunCommand e = false)
        by (specialize (Hquiet e (or_introl eq_refl)); destruct e; auto; discriminate).
      unfold count in *. simpl. rewrite H. apply IH.
      - by inversion Hq.
      - intros e' He'. apply Hquiet. by right. }
    destruct (String.eqb challengeType "DNS-01").
    + destruct (dns01_trace E domain email caURL w2)
        as [Htr | [([e He] & Htr) | (tmp & mid & Htmp' & Htr & Hmid)]].
      * exists pre. rewrite Htr, Hpre. split; [reflexivity|]. split; [lia|].
        intros Hin. apply Hquiet in Hin. discriminate.
      * congruence.
      * assert (tmp = tmpDir) as -> by congruence.
        eexists. rewrite Htr, Hpre, <- app_assoc. split; [reflexivity|]. split.
        -- rewrite !count_app, Hrun0.
           destruct Hmid as [-> | ->]; unfold removalWarning, count;
             destruct (RemoveAll E tmpDir); simpl; lia.
        -- intros _. eexists (pre ++ [_; _] ++ mid). split.
           ++ rewrite <- !app_assoc. reflexivity.
           ++ rewrite !in_app_iff. intros [H | [H | H]].
              ** apply Hquiet in H. discriminate.
              ** simpl in H. destruct H as [H | [H | []]]; discriminate.
              ** destruct Hmid as [-> | ->]; simpl in H; [tauto|].
                 destruct H as [H | []]; discriminate.
    + destruct (http01_never_runs_a_subprocess_aux E certInfo domain email caURL w2)
        as (t & Ht & Hsub).
      exists (pre ++ t). rewrite Ht, Hpre, app_assoc. split; [reflexivity|].
      assert (Hnone : forall e, In e t -> isSubprocess e = false)
        by (intros e He; rewrite Forall_forall in Hsub; apply Hsub, list_elem_of_In, He).
      split.
      * rewrite count_app, Hrun0. simpl. clear Ht.
        induction t as [|e t IH]; [unfold count; simpl; lia|].
        assert (isRunCommand e = false)
          by (specialize (Hnone e (or_introl eq_refl)); destruct e; auto; discriminate).
        unfold count in *. simpl. rewrite H. apply IH.
        -- by inversion Hsub.
        -- intros e' He'. apply Hnone. by right.
      * rewrite in_app_iff. intros [H | H].
        -- apply Hquiet in H. discriminate.
        -- apply Hnone in H. discriminate.
Qed.

Lemma temporary_directory_is_removed_witness :
  exists before,
    trace (snd (UpdateCertificate (caUp "dummy" (10 * day)) "DNS-01" false
                  "example.org" "admin@example.org" "https://ca.example/dir" false
                  (world []))) =
    before ++ [EvRemoveAll "/tmp/lego1"].
Proof.
  destruct (temporary_directory_is_removed (caUp "dummy" (10 * day)) (world [])
              "DNS-01" false "example.org" "admin@example.org"
              "https://ca.example/dir" false "/tmp/lego1" eq_refl)
    as (tr & Htr & _ & Hlast).
  destruct Hlast as (before & Hbefore & _).
  - change (trace (world []) ++ tr) with tr in Htr. subst tr. vm_compute. tauto.
  - exists before. rewrite Htr. exact Hbefore.
Defined.

(** ** The arguments of lego *)

Lemma fold_left_append (resolvers : list string) (args : list string) :
  fold_left (fun args resolver => args ++ ["--dns.resolvers"; resolver]) resolvers args =
  args ++ flat_map (fun resolver => ["--dns.resolvers"; resolver]) resolvers.
Proof.
  revert args. induction resolvers as [|r rs IH]; intros args; simpl.
  - by rewrite app_nil_r.
  - rewrite IH, <- app_assoc. reflexivity.
Qed.

(** X11. The arguments handed to [lego] are the eleven fixed ones (terms of
    service, provider, domain, e-mail, path, server), then one
    [--dns.resolvers r] pair for each configured resolver, in their order,
    then [run]; so there are [12 + 2 n] of them for [n] resolvers, and with
    no resolver nothing stands between the server URL and [run]. *)
Theorem legoArgs_shape (provider domain email tmpDir caURL : string)
    (resolvers : list string) :
  legoArgs provider domain email tmpDir caURL resolvers =
    ["--accept-tos"; "--dns"; provider; "--domains"; domain; "--email"; email;
     "--path"; tmpDir; "--server"; caURL]
    ++ flat_map (fun resolver => ["--dns.resolvers"; resolver]) resolvers
    ++ ["run"] /\
  length (legoArgs provider domain email tmpDir caURL resolvers) =
    (12 + 2 * length resolvers)%nat /\
  last (legoArgs provider domain email tmpDir caURL resolvers) = Some "run".
Proof.
  assert (H : legoArgs provider domain email tmpDir caURL resolvers =
    ["--accept-tos"; "--dns"; provider; "--domains"; domain; "--email"; email;
     "--path"; tmpDir; "--server"; caURL]
    ++ flat_map (fun resolver => ["--dns.resolvers"; resolver]) resolvers
    ++ ["run"]).
  { unfold legoArgs. destruct resolvers as [|r rs].
    - reflexivity.
    - change (0 <? length (r :: rs))%nat with true. cbv iota.
      rewrite fold_left_append, <- app_assoc. reflexivity. }
  split; [exact H|]. rewrite H. split.
  - assert (Hlen : length (flat_map (fun resolver => ["--dns.resolvers"; resolver])
                            resolvers) = (2 * length resolvers)%nat).
    { clear H. induction resolvers as [|r rs IH]; simpl; [reflexivity|].
      rewrite IH. lia. }
    rewrite !length_app, Hlen. simpl. lia.
  - rewrite app_assoc. apply last_snoc.
Qed.

(** ** Set-up failures of the ACME client *)

Lemma count_none (p : event -> bool) (tr : list event) :
  (forall e, In e tr -> p e = false) -> count p tr = 0%nat.
Proof.
  induction tr as [|e tr IH]; intros H; [reflexivity|].
  unfold count in *. simpl. rewrite (H e (or_introl eq_refl)).
  apply IH. intros e' He'. apply H. by right.
Qed.

Lemma http01_setup_failure (E : Env) (certInfo : localtls.CertInfo)
    (domain email caURL : string) (w : World) :
  (exists e, GenerateKey E = Err e) \/
  (exists k e, GenerateKey E = Ok k /\ NewClient E (clientConfig email k caURL) = Some e) \/
  (exists e, RegisterWithSolver E = Some e) ->
  exists tr,
    trace (snd (http01 E certInfo domain email caURL w)) = trace w ++ tr /\
    count isAttempt tr = 0%nat /\ count isSleep tr = 0%nat /\
    clock (snd (http01 E certInfo domain email caURL w)) = clock w.
Proof.
  intros Hfail. unfold http01.
  destruct Hfail as [[e He] | [(k & e & Hk & He) | [e He]]].
  - run. exists [EvGenerateKey]. auto.
  - run. exists [EvGenerateKey; EvNewClient (clientConfig email k caURL)].
    rewrite <- app_assoc. auto.
  - run. destruct (GenerateKey E) as [k|e']; simpl; [|exists [EvGenerateKey]; auto].
    destruct (NewClient E (clientConfig email k caURL)); simpl.
    + exists [EvGenerateKey; EvNewClient (clientConfig email k caURL)].
      rewrite <- app_assoc. auto.
    + exists [EvGenerateKey; EvNewClient (clientConfig email k caURL);
              EvRegisterWithSolver].
      rewrite <- !app_assoc. auto.
Qed.

(** X12. When the account key cannot be generated, the client cannot be
    created or the solver cannot be registered, a call with a challenge type
    other than "DNS-01" never calls the CA and never sleeps: its clock is
    where it was. *)
Theorem setup_failure_never_calls_the_CA (E : Env) (w : World) (challengeType : string)
    (clustered : bool) (domain email caURL : string) (force : bool) :
  challengeType <> "DNS-01" ->
  (exists e, GenerateKey E = Err e) \/
  (exists k e, GenerateKey E = Ok k /\ NewClient E (clientConfig email k caURL) = Some e) \/
  (exists e, RegisterWithSolver E = Some e) ->
  let w' := snd (UpdateCertificate E challengeType clustered domain email caURL force w) in
  exists tr, trace w' = trace w ++ tr /\
    count isAttempt tr = 0%nat /\ count isSleep tr = 0%nat /\ clock w' = clock w.
Proof.
  intros Hct Hfail w'. subst w'.
  destruct (UpdateCertificate_reaches E w challengeType clustered domain email caURL force)
    as (pre & Hq & Hreach).
  assert (Hquiet : forall e, In e pre -> isQuiet e = true)
    by (intros e He; rewrite Forall_forall in Hq; apply Hq, list_elem_of_In, He).
  assert (Hpre : count isAttempt pre = 0%nat /\ count isSleep pre = 0%nat).
  { split; apply count_none; intros e He; apply Hquiet in He;
      destruct e; auto; discriminate. }
  destruct Hreach as [Hearly | (certInfo & w2 & _ & Htr2 & Hck2 & Hcall)].
  - exists pre. split; [exact Hearly|]. split; [tauto|]. split; [tauto|].
    pose proof (UpdateCertificate_spending E challengeType clustered domain email caURL
                  force w) as (tr & Htr & _ & _ & Hck).
    rewrite Hearly in Htr. apply app_inv_head in Htr. subst tr.
    rewrite Hck. destruct Hpre as [_ ->]. lia.
  - rewrite Hcall. unfold issue.
    destruct (String.eqb_spec challengeType "DNS-01") as [|_]; [contradiction|].
    pose proof (http01_setup_failure E certInfo domain email caURL w2 Hfail) as Hsetup.
    destruct Hsetup as (tr & Htr & Ha & Hs & Hck).
    exists (pre ++ tr). rewrite Htr, Htr2, app_assoc, !count_app, Ha, Hs, Hck, Hck2.
    destruct Hpre as [-> ->]. auto.
Qed.

Lemma setup_failure_never_calls_the_CA_witness :
  clock (snd (UpdateCertificate noSolver "HTTP-01" false "example.org"
                "admin@example.org" "" true (world []))) = 0.
Proof.
  destruct (setup_failure_never_calls_the_CA noSolver (world []) "HTTP-01" false
              "example.org" "admin@example.org" "" true)
    as (tr & _ & _ & _ & Hck).
  - discriminate.
  - right; right. eexists. reflexivity.
  - exact Hck.
Defined.

(** ** One call after another *)

(** X13. After a call that did not return from the buffered-certificate
    block the buffer file is absent, whether it was there before or not; so
    the next call, whatever its arguments, reads and removes nothing: it
    starts with the load of the active certificate. *)
Theorem cleared_buffer_stays_cleared (E : Env) (w w1 : World)
    (challengeType : string) (clustered : bool) (domain email caURL : string)
    (force : bool)
    (challengeType' : string) (clustered' : bool) (domain' email' caURL' : string)
    (force' : bool) :
  let buffer := VarPath E ClusterCertFilename in
  let w' := snd (UpdateCertificate E challengeType clustered domain email caURL force w) in
  bufferedCertificate E buffer clustered domain force w = (Next tt, w1) ->
  fs w' !! buffer = None /\
  UpdateCertificate E challengeType' clustered' domain' email' caURL' force' w' =
    renew E challengeType' domain' email' caURL' force' w'.
Proof.
  intros buffer w' Hthrough.
  assert (Hgone : fs w' !! buffer = None).
  { subst w'. unfold UpdateCertificate. fold buffer.
    rewrite (bind_Next _ _ _ _ _ Hthrough).
    destruct (fs w1 !! buffer) as [n|] eqn:Hn.
    - rewrite (bind_Next _ _ _ _ _ (clearBuffer_present buffer w1 ltac:(eauto))).
      destruct (renew_frame E challengeType domain email caURL force (removed buffer w1))
        as [Hfs _].
      cbv beta. rewrite Hfs. simpl. apply lookup_delete_eq.
    - rewrite (bind_Next _ _ _ _ _ (clearBuffer_absent buffer w1 Hn)).
      destruct (renew_frame E challengeType domain email caURL force w1) as [Hfs _].
      cbv beta. rewrite Hfs. exact Hn. }
  split; [exact Hgone|].
  unfold UpdateCertificate at 1. fold buffer.
  rewrite (bind_Next _ _ _ _ _
             (bufferedCertificate_skipped E buffer clustered' domain' force' w'
                ltac:(auto))).
  rewrite (bind_Next _ _ _ _ _ (clearBuffer_absent buffer w' Hgone)).
  reflexivity.
Qed.

Lemma cleared_buffer_stays_cleared_witness :
  let w' := snd (UpdateCertificate (caUp "dummy" (10 * day)) "HTTP-01" true
                   "example.org" "admin@example.org" "" false staleBuffer) in
  UpdateCertificate (caUp "dummy" (10 * day)) "HTTP-01" true "example.org"
    "admin@example.org" "" false w' =
  renew (caUp "dummy" (10 * day)) "HTTP-01" "example.org" "admin@example.org" "" false w'.
Proof.
  intros w'.
  apply (cleared_buffer_stays_cleared (caUp "dummy" (10 * day)) staleBuffer
           (logged [EvReadFile bufferPath; EvReadFile keyPath] staleBuffer)
           "HTTP-01" true "example.org" "admin@example.org" "" false).
  vm_compute. reflexivity.
Defined.
